(** * usb_refresher.py: escalating ADB / devcon recovery

    A shallow embedding of [src/usb_refresher.py].  Python [str] values are
    modelled as [string] (code points 0..255, read as Latin-1); the host
    (child processes, the wall clock, [time.sleep], the file system and the
    privilege query) is an abstract interface; every function that talks to
    the host lives in a small state-and-exception monad that also records
    the trace of host interactions and of [logging] calls. *)

From Stdlib Require Import List String Ascii Bool Arith ZArith QArith Lia Lqa.
Import ListNotations.
Open Scope string_scope.

Set Implicit Arguments.

(* ================================================================== *)
(** ** Python string primitives *)
(* ================================================================== *)

Module PyStr.

Definition code (c : ascii) : N := N_of_ascii c.

(** [str.isspace] on one character (Latin-1 range): TAB..CR, FS..US,
    SPACE, NEL, NBSP. *)
Definition is_space (c : ascii) : bool :=
  let n := code c in
  ((9 <=? n) && (n <=? 13) || (28 <=? n) && (n <=? 31) || (n =? 32)
   || (n =? 133) || (n =? 160))%N.

(** Line boundaries of [str.splitlines] (Latin-1 range): LF, VT, FF, CR,
    FS, GS, RS, NEL.  CR LF is one boundary. *)
Definition is_linebreak (c : ascii) : bool :=
  let n := code c in
  ((10 <=? n) && (n <=? 13) || (28 <=? n) && (n <=? 30) || (n =? 133))%N.

(** [str.lower] on one character (Latin-1 range). *)
Definition lower_char (c : ascii) : ascii :=
  let n := code c in
  if ((65 <=? n) && (n <=? 90)
      || (192 <=? n) && (n <=? 222) && negb (n =? 215))%N
  then ascii_of_N (n + 32) else c.

(** [str.upper] on one character; used by the program only on the text of
    a match of an ASCII-only regular expression. *)
Definition upper_char (c : ascii) : ascii :=
  let n := code c in
  if ((97 <=? n) && (n <=? 122))%N then ascii_of_N (n - 32) else c.

Fixpoint map (f : ascii -> ascii) (s : string) : string :=
  match s with
  | EmptyString => EmptyString
  | String c r => String (f c) (map f r)
  end.

Definition lower (s : string) : string := map lower_char s.
Definition upper (s : string) : string := map upper_char s.

(** Truth value of a string: non-empty. *)
Definition truthy (s : string) : bool :=
  match s with EmptyString => false | String _ _ => true end.

Fixpoint lstrip (s : string) : string :=
  match s with
  | EmptyString => EmptyString
  | String c r => if is_space c then lstrip r else s
  end.

Fixpoint rstrip (s : string) : string :=
  match s with
  | EmptyString => EmptyString
  | String c r =>
      match rstrip r with
      | EmptyString => if is_space c then EmptyString else String c EmptyString
      | r' => String c r'
      end
  end.

(** [s.strip()] *)
Definition strip (s : string) : string := rstrip (lstrip s).

Definition snoc (s : string) (c : ascii) : string := s ++ String c EmptyString.

(** [s.splitlines()]: [cur] is the line being read. *)
Fixpoint splitlines_from (cur : string) (s : string) : list string :=
  match s with
  | EmptyString => if truthy cur then [cur] else []
  | String c r =>
      if (code c =? 13)%N then
        match r with
        | String c' r' =>
            if (code c' =? 10)%N then cur :: splitlines_from EmptyString r'
            else cur :: splitlines_from EmptyString r
        | EmptyString => cur :: splitlines_from EmptyString r
        end
      else if is_linebreak c then cur :: splitlines_from EmptyString r
      else splitlines_from (snoc cur c) r
  end.

Definition splitlines (s : string) : list string :=
  splitlines_from EmptyString s.

(** [s.split()]: maximal runs of non-whitespace characters. *)
Fixpoint split_from (cur : string) (s : string) : list string :=
  match s with
  | EmptyString => if truthy cur then [cur] else []
  | String c r =>
      if is_space c
      then (if truthy cur then cur :: split_from EmptyString r
            else split_from EmptyString r)
      else split_from (snoc cur c) r
  end.

Definition split (s : string) : list string := split_from EmptyString s.

(** [s.startswith(p)] *)
Definition startswith (p s : string) : bool := String.prefix p s.

(** [needle in hay] *)
Fixpoint contains (needle hay : string) : bool :=
  startswith needle hay
  || match hay with
     | EmptyString => false
     | String _ r => contains needle r
     end.

(** [s.split(":", 1)] when [":" in s]: the text before and after the
    first colon; [None] when there is no colon. *)
Fixpoint split_colon (s : string) : option (string * string) :=
  match s with
  | EmptyString => None
  | String c r =>
      if (code c =? 58)%N then Some (EmptyString, r)
      else match split_colon r with
           | Some (a, b) => Some (String c a, b)
           | None => None
           end
  end.

(** [sep.join(parts)] *)
Definition join (sep : string) (parts : list string) : string :=
  String.concat sep parts.

End PyStr.

(* ================================================================== *)
(** ** Module constants *)
(* ================================================================== *)

Definition ADB_HEALTHY_STATE : string := "device".

Definition ADB_SOFT_RESET_COMMANDS : list (list string) :=
  [ ["kill-server"]; ["start-server"]; ["reconnect"] ].

Definition ANDROID_DEVICE_NAME : string := "Android Composite ADB Interface".

(** The set literal [COMMON_ANDROID_VIDS]; only membership is ever asked. *)
Definition COMMON_ANDROID_VIDS : list string :=
  [ "18D1"; "0BB4"; "12D1"; "04E8"; "22B8"; "2A70"; "0FCE"; "0502"; "05C6" ].

Definition in_COMMON_ANDROID_VIDS (vid : string) : bool :=
  existsb (String.eqb vid) COMMON_ANDROID_VIDS.

(* ================================================================== *)
(** ** Pure parsers *)
(* ================================================================== *)

(** The serial filter of [parse_adb_devices]: [serial and device_serial != serial]. *)
Definition serial_rejects (serial : option string) (device_serial : string) : bool :=
  match serial with
  | Some s => PyStr.truthy s && negb (String.eqb device_serial s)
  | None => false
  end.

(** The [for line in lines] loop of [parse_adb_devices]. *)
Fixpoint parse_adb_lines (lines : list string) (serial : option string) : option string :=
  match lines with
  | [] => None
  | line :: rest =>
      if PyStr.startswith "list of devices" (PyStr.lower line)
      then parse_adb_lines rest serial
      else match PyStr.split line with
           | device_serial :: state :: _ =>
               if serial_rejects serial device_serial
               then parse_adb_lines rest serial
               else Some state
           | _ => parse_adb_lines rest serial
           end
  end.

Definition parse_adb_devices (output : string) (serial : option string) : option string :=
  let lines :=
    List.map PyStr.strip
      (List.filter (fun line => PyStr.truthy (PyStr.strip line)) (PyStr.splitlines output)) in
  match lines with
  | [] => None
  | _ => parse_adb_lines lines serial
  end.

Fixpoint parse_findall_lines (lines : list string) : list (string * string) :=
  match lines with
  | [] => []
  | line :: rest =>
      match PyStr.split_colon line with
      | None => parse_findall_lines rest
      | Some (instance_id, name) =>
          (PyStr.strip instance_id, PyStr.strip name) :: parse_findall_lines rest
      end
  end.

Definition parse_devcon_findall (output : string) : list (string * string) :=
  parse_findall_lines (PyStr.splitlines output).

(** One entry of [parse_devcon_hwids]: the dict with keys id, name, hwids. *)
Record hwid_device : Type := mk_device
  { dev_id : string; dev_name : string; dev_hwids : list string }.

Module Re.

Definition is_hex (c : ascii) : bool :=
  let n := PyStr.code c in
  ((48 <=? n) && (n <=? 57) || (65 <=? n) && (n <=? 70)
   || (97 <=? n) && (n <=? 102))%N.

Definition is_upper_hex (c : ascii) : bool :=
  let n := PyStr.code c in
  ((48 <=? n) && (n <=? 57) || (65 <=? n) && (n <=? 70))%N.

(** Match a literal at the start of [s]; the rest of [s] on success. *)
Fixpoint lit (p s : string) : option string :=
  match p, s with
  | EmptyString, _ => Some s
  | String a p', String b s' => if Ascii.eqb a b then lit p' s' else None
  | String _ _, EmptyString => None
  end.

(** Match [cls{4}] at the start of [s]: the four characters and the rest. *)
Definition four (cls : ascii -> bool) (s : string) : option (string * string) :=
  match s with
  | String a (String b (String c (String d r)))  =>
      if cls a && cls b && cls c && cls d
      then Some (String a (String b (String c (String d EmptyString))), r)
      else None
  | _ => None
  end.

(** [USB\\VID_[0-9A-Fa-f]{4}&PID_[0-9A-Fa-f]{4}] anchored at the start of
    [s]: group 0 on success. *)
Definition hwid_at (s : string) : option string :=
  match lit "USB\VID_" s with
  | None => None
  | Some s1 =>
      match four is_hex s1 with
      | None => None
      | Some (v, s2) =>
          match lit "&PID_" s2 with
          | None => None
          | Some s3 =>
              match four is_hex s3 with
              | None => None
              | Some (p, _) => Some ("USB\VID_" ++ v ++ "&PID_" ++ p)
              end
          end
      end
  end.

(** [VID_([0-9A-F]{4})] anchored at the start of [s]: group 1 on success. *)
Definition vid_at (s : string) : option string :=
  match lit "VID_" s with
  | None => None
  | Some s1 => match four is_upper_hex s1 with
               | None => None
               | Some (v, _) => Some v
               end
  end.

(** [re.search]: the leftmost position at which the anchored matcher
    succeeds. *)
Fixpoint search (at_ : string -> option string) (s : string) : option string :=
  match at_ s with
  | Some m => Some m
  | None => match s with
            | EmptyString => None
            | String _ r => search at_ r
            end
  end.

End Re.

(** One iteration of the loop of [parse_devcon_hwids] over the pair
    ([devices], [current]). *)
Definition hwids_step (st : list hwid_device * option hwid_device) (line : string)
  : list hwid_device * option hwid_device :=
  let '(devices, current) := st in
  if negb (PyStr.truthy (PyStr.strip line)) then
    match current with
    | Some c => ((devices ++ [c])%list, None)
    | None => (devices, None)
    end
  else
    (* [":" in line and not line.startswith(" ")], then [line.split(":", 1)] *)
    match (if PyStr.startswith " " line then None else PyStr.split_colon line) with
    | Some (instance_id, name) =>
        (devices, Some (mk_device (PyStr.strip instance_id) (PyStr.strip name) []))
    | None =>
        match current with
        | Some c =>
            match Re.search Re.hwid_at line with
            | Some m =>
                (devices,
                 Some (mk_device (dev_id c) (dev_name c) (dev_hwids c ++ [PyStr.upper m])%list))
            | None => (devices, current)
            end
        | None => (devices, current)
        end
    end.

Definition parse_devcon_hwids (output : string) : list hwid_device :=
  let '(devices, current) :=
    fold_left hwids_step (PyStr.splitlines output) ([], None) in
  match current with
  | Some c => (devices ++ [c])%list
  | None => devices
  end.

(** The test of stage one of [find_devcon_device]. *)
Definition name_matches (name : string) : bool :=
  PyStr.contains (PyStr.lower ANDROID_DEVICE_NAME) (PyStr.lower name).

(** The test of stage two on one hardware ID. *)
Definition hwid_matches (hwid : string) : bool :=
  match Re.search Re.vid_at hwid with
  | Some vid => in_COMMON_ANDROID_VIDS vid
  | None => false
  end.

Definition LF : string := String "010" EmptyString.

Definition adb_listing : string :=
  "List of devices attached" ++ LF ++
  "emulator-5554   offline" ++ LF ++
  "R58M12345      device usb:1-2" ++ LF ++ LF.

Definition hwids_listing : string :=
  "USB\ROOT_HUB30\4&1: USB Root Hub" ++ LF ++
  "    Hardware IDs:" ++ LF ++
  "        USB\ROOT_HUB30&VID8086" ++ LF ++ LF ++
  "USB\VID_04E8&PID_6860\R58M: SAMSUNG Mobile USB Composite Device" ++ LF ++
  "    Hardware IDs:" ++ LF ++
  "        USB\VID_04e8&PID_6860&REV_0400" ++ LF ++
  "        USB\VID_04E8&PID_6860" ++ LF.

(* ================================================================== *)
(** ** The host, the trace and the monad *)
(* ================================================================== *)

(** [subprocess.CompletedProcess] with [capture_output=True, text=True]. *)
Record CompletedProcess : Type := mk_cp
  { returncode : Z; stdout : string; stderr : string }.

(** What [subprocess.run(..., text=True, check=False)] can do: return,
    raise [TimeoutExpired], raise an [OSError] because the child could not
    be launched, or raise [UnicodeDecodeError] because the child printed
    bytes that do not decode as text. *)
Inductive spawn : Type :=
| Exited (cp : CompletedProcess)
| TimedOut
| LaunchFailed (reason : string)
| DecodeFailed (reason : string).

(** Exceptions that travel through the program. [CommandError] is the one
    exception class the module defines; [OverflowError] is what
    [time.time() + timeout] raises for an integer too large for a float. *)
Inductive exn : Type :=
| TimeoutExpired
| OSError (reason : string)
| CommandError (msg : string)
| UnicodeDecodeError (reason : string)
| OverflowError.

Inductive level : Type := DEBUG | INFO | WARNING | ERROR.

(** Interactions with the host, in program order. [EvLog] records a call
    of [logging.debug/info/warning/error]. *)
Inductive event : Type :=
| EvRun (command : list string) (timeout : option Z) (r : spawn)
| EvTime (t : Q)
| EvSleep (secs : Z)
| EvBasicConfig (lvl : level)
| EvLog (lvl : level) (msg : string).

(** The host as seen by the program. Times are seconds as exact rationals
    (the program holds them in floats). *)
Class Host (W : Type) : Type :=
  { subprocess_run : list string -> option Z -> W -> spawn * W;
    time_time : W -> Q * W;
    time_sleep : Z -> W -> W;
    sys_platform : W -> string;
    (** [ctypes.windll.shell32.IsUserAnAdmin()]; [None] when it raises [OSError] *)
    IsUserAnAdmin : W -> option Z;
    os_path_sep : W -> string;
    os_path_altsep : W -> option string;
    os_path_isfile : string -> W -> bool;
    shutil_which : string -> W -> option string }.

Inductive outcome (A : Type) : Type :=
| Ret (a : A)
| Raise (e : exn)
| OutOfFuel.

Arguments Ret {A} a.
Arguments Raise {A} e.
Arguments OutOfFuel {A}.

(** [argparse.Namespace] as returned by [parse_args]. *)
Record Namespace : Type := mk_args
  { ns_adb_path : string;
    ns_devcon_path : string;
    ns_timeout : Z;
    ns_serial : option string;
    ns_dry_run : bool;
    ns_verbose : bool }.

Definition Qlt_bool (a b : Q) : bool := negb (Qle_bool b a).

(** The integers at or beyond this bound (in absolute value) do not convert
    to a float: the conversion rounds to nearest, and from here on the
    nearest value is past the largest finite float. *)
Definition float_int_limit : Z := 2 ^ 1024 - 2 ^ 970.

(** The conversion of the integer operand of [float + int]; [None] when
    Python raises [OverflowError].  The rounding of the conversion, and of
    the sum, is left out: the value is the exact rational. *)
Definition float_of_int (z : Z) : option Q :=
  if (Z.abs z <? float_int_limit)%Z then Some (inject_Z z) else None.

Declare Scope py_scope.
Delimit Scope py_scope with py.

Section Program.

Context {W : Type} {host : Host W}.

(** The result of running a computation from a world: its outcome, the
    events it produced, and the world it leaves. *)
Record run (A : Type) : Type := mk_run
  { res : outcome A; evs : list event; fin : W }.

Definition M (A : Type) : Type := W -> run A.

Definition ret {A} (a : A) : M A := fun w => mk_run (Ret a) [] w.

Definition raise {A} (e : exn) : M A := fun w => mk_run (Raise e) [] w.

Definition out_of_fuel {A} : M A := fun w => mk_run OutOfFuel [] w.

Definition bind {A B} (m : M A) (k : A -> M B) : M B :=
  fun w =>
    let r := m w in
    match res r with
    | Ret a => let r' := k a (fin r) in
               mk_run (res r') (evs r ++ evs r') (fin r')
    | Raise e => mk_run (Raise e) (evs r) (fin r)
    | OutOfFuel => mk_run OutOfFuel (evs r) (fin r)
    end.

(** [try: m except ...: handler]; every handler of the program re-raises. *)
Definition try_except {A} (m : M A) (handler : exn -> M A) : M A :=
  fun w =>
    let r := m w in
    match res r with
    | Raise e => let r' := handler e (fin r) in
                 mk_run (res r') (evs r ++ evs r') (fin r')
    | _ => r
    end.

Definition emit (e : event) : M unit := fun w => mk_run (Ret tt) [e] w.

Definition gets {A} (f : W -> A) : M A := fun w => mk_run (Ret (f w)) [] w.

Local Notation "x <- m ;; k" := (bind m (fun x => k))
  (at level 61, m at next level, right associativity) : py_scope.
Local Notation "m ;; k" := (bind m (fun _ => k))
  (at level 61, right associativity) : py_scope.
Local Open Scope py_scope.

(** *** Host primitives *)

Definition logging (lvl : level) (msg : string) : M unit := emit (EvLog lvl msg).

(** [subprocess.run(command, capture_output=True, text=True,
    timeout=timeout, check=False)] *)
Definition subprocess_run_ (command : list string) (timeout : option Z)
  : M CompletedProcess :=
  fun w =>
    let '(r, w') := subprocess_run command timeout w in
    match r with
    | Exited cp => mk_run (Ret cp) [EvRun command timeout r] w'
    | TimedOut => mk_run (Raise TimeoutExpired) [EvRun command timeout r] w'
    | LaunchFailed why => mk_run (Raise (OSError why)) [EvRun command timeout r] w'
    | DecodeFailed why =>
        mk_run (Raise (UnicodeDecodeError why)) [EvRun command timeout r] w'
    end.

Definition time_ : M Q :=
  fun w => let '(t, w') := time_time w in mk_run (Ret t) [EvTime t] w'.

Definition sleep (secs : Z) : M unit :=
  fun w => mk_run (Ret tt) [EvSleep secs] (time_sleep secs w).

(** *** The program *)

Definition configure_logging (verbose : bool) : M unit :=
  let lvl := if verbose then DEBUG else INFO in
  emit (EvBasicConfig lvl).

(** [is_windows_admin], as a reading of the host. *)
Definition windows_admin (w : W) : bool :=
  if negb (String.eqb (sys_platform w) "win32") then true
  else match IsUserAnAdmin w with
       | Some r => negb (r =? 0)%Z
       | None => false
       end.

Definition is_windows_admin : M bool := gets windows_admin.

(** [resolve_executable], as a reading of the host. *)
Definition executable (path : string) (w : W) : option string :=
  if PyStr.contains (os_path_sep w) path
     || match os_path_altsep w with
        | Some alt => PyStr.truthy alt && PyStr.contains alt path
        | None => false
        end
  then (if os_path_isfile path w then Some path else None)
  else match shutil_which path w with
       | Some resolved => if PyStr.truthy resolved then Some resolved else None
       | None => None
       end.

Definition resolve_executable (path : string) : M (option string) :=
  gets (executable path).

Definition run_command (command : list string) (timeout : option Z)
  : M CompletedProcess :=
  logging DEBUG ("Running command: " ++ PyStr.join " " command) ;;
  try_except (subprocess_run_ command timeout)
    (fun exc =>
       match exc with
       | TimeoutExpired =>
           raise (CommandError ("Command timed out: " ++ PyStr.join " " command))
       | _ => raise exc
       end).

Definition adb_command (adb_path : string) (args : list string) (timeout : option Z)
  : M CompletedProcess :=
  run_command (adb_path :: args) timeout.

Definition is_adb_healthy (adb_path : string) (serial : option string) : M bool :=
  result <- adb_command adb_path ["devices"] None ;;
  if negb (returncode result =? 0)%Z then
    logging WARNING ("adb devices failed: " ++ PyStr.strip (stderr result)) ;;
    ret false
  else
    match parse_adb_devices (stdout result) serial with
    | None => logging INFO "No ADB device found." ;; ret false
    | Some state =>
        if String.eqb state ADB_HEALTHY_STATE then
          logging INFO ("ADB device is healthy (" ++ state ++ ").") ;;
          ret true
        else
          logging WARNING ("ADB device unhealthy (" ++ state ++ ").") ;;
          ret false
    end.

Fixpoint for_each {A} (items : list A) (body : A -> M unit) : M unit :=
  match items with
  | [] => ret tt
  | a :: rest => body a ;; for_each rest body
  end.

(** The body of the loop of [soft_reset]. *)
Definition soft_reset_step (adb_path : string) (args : list string) : M unit :=
  result <- adb_command adb_path args None ;;
  if negb (returncode result =? 0)%Z then
    logging WARNING
      ("adb " ++ PyStr.join " " args ++ " failed: " ++ PyStr.strip (stderr result))
  else ret tt.

Definition soft_reset (adb_path : string) : M unit :=
  for_each ADB_SOFT_RESET_COMMANDS (soft_reset_step adb_path).

(** The first entry of the [findall] listing that passes the name test. *)
Fixpoint first_name_match (devices : list (string * string))
  : option (string * string) :=
  match devices with
  | [] => None
  | (instance_id, name) :: rest =>
      if name_matches name then Some (instance_id, name)
      else first_name_match rest
  end.

(** The first hardware ID, in entry order then list order, that passes
    the vendor test, with its entry. *)
Fixpoint first_vid_match (devices : list hwid_device)
  : option (string * hwid_device) :=
  match devices with
  | [] => None
  | device :: rest =>
      match find hwid_matches (dev_hwids device) with
      | Some hwid => Some (hwid, device)
      | None => first_vid_match rest
      end
  end.

Definition find_devcon_device (devcon_path : string) : M (option string) :=
  findall <- run_command [devcon_path; "findall"; "=usb"] None ;;
  match (if (returncode findall =? 0)%Z
         then first_name_match (parse_devcon_findall (stdout findall))
         else None) with
  | Some (instance_id, name) =>
      logging INFO ("Matched device by name: " ++ name) ;;
      ret (Some instance_id)
  | None =>
      hwids_result <- run_command [devcon_path; "hwids"; "=usb"] None ;;
      if negb (returncode hwids_result =? 0)%Z then
        logging ERROR ("devcon hwids failed: " ++ PyStr.strip (stderr hwids_result)) ;;
        ret None
      else
        match first_vid_match (parse_devcon_hwids (stdout hwids_result)) with
        | Some (hwid, device) =>
            logging INFO ("Matched device by VID/PID: " ++ hwid) ;;
            ret (Some (dev_id device))
        | None => ret None
        end
  end.

Definition hard_reset (devcon_path instance_id : string) (dry_run : bool) : M bool :=
  if dry_run then
    logging INFO ("Dry run: would disable " ++ instance_id) ;;
    logging INFO ("Dry run: would enable " ++ instance_id) ;;
    ret true
  else
    disable <- run_command [devcon_path; "disable"; instance_id] None ;;
    if negb (returncode disable =? 0)%Z then
      logging ERROR ("devcon disable failed: " ++ PyStr.strip (stderr disable)) ;;
      ret false
    else
      sleep 2 ;;
      enable <- run_command [devcon_path; "enable"; instance_id] None ;;
      if negb (returncode enable =? 0)%Z then
        logging ERROR ("devcon enable failed: " ++ PyStr.strip (stderr enable)) ;;
        ret false
      else ret true.

(** The [while time.time() < deadline] loop; [fuel] bounds the number of
    times the body is entered. *)
Fixpoint poll_loop (fuel : nat) (adb_path : string) (serial : option string)
  (deadline : Q) : M bool :=
  now <- time_ ;;
  if Qlt_bool now deadline then
    match fuel with
    | O => out_of_fuel
    | S fuel' =>
        healthy <- is_adb_healthy adb_path serial ;;
        if healthy then ret true
        else sleep 2 ;; poll_loop fuel' adb_path serial deadline
    end
  else ret false.

Definition poll_until_healthy (fuel : nat) (adb_path : string)
  (serial : option string) (timeout : Z) : M bool :=
  start <- time_ ;;
  match float_of_int timeout with
  | None => raise OverflowError
  | Some seconds =>
      let deadline := (start + seconds)%Q in
      poll_loop fuel adb_path serial deadline
  end.

(** [not path] for the result of [resolve_executable]. *)
Definition resolved (path : option string) : option string :=
  match path with
  | Some p => if PyStr.truthy p then Some p else None
  | None => None
  end.

(** [main], from the parsed arguments on. *)
Definition main (fuel : nat) (args : Namespace) : M Z :=
  configure_logging (ns_verbose args) ;;
  admin <- is_windows_admin ;;
  if negb admin then
    logging ERROR "Administrator privileges are required on Windows." ;;
    ret 3%Z
  else
    adb_path <- resolve_executable (ns_adb_path args) ;;
    devcon_path <- resolve_executable (ns_devcon_path args) ;;
    match resolved adb_path with
    | None =>
        logging ERROR ("adb.exe not found at " ++ ns_adb_path args) ;;
        ret 2%Z
    | Some adb_path =>
    match resolved devcon_path with
    | None =>
        logging ERROR ("devcon.exe not found at " ++ ns_devcon_path args) ;;
        ret 2%Z
    | Some devcon_path =>
        healthy <- is_adb_healthy adb_path (ns_serial args) ;;
        if healthy then ret 0%Z
        else
          logging INFO "Attempting soft reset of ADB server." ;;
          soft_reset adb_path ;;
          recovered <- poll_until_healthy fuel adb_path (ns_serial args) (ns_timeout args) ;;
          if recovered then ret 0%Z
          else
            logging WARNING "Soft reset did not recover device; attempting hard reset." ;;
            instance_id <- find_devcon_device devcon_path ;;
            match resolved instance_id with
            | None =>
                logging ERROR "Unable to locate Android USB device for hard reset." ;;
                ret 1%Z
            | Some instance_id =>
                ok <- hard_reset devcon_path instance_id (ns_dry_run args) ;;
                if negb ok then ret 1%Z
                else
                  soft_reset adb_path ;;
                  recovered <- poll_until_healthy fuel adb_path (ns_serial args)
                                 (ns_timeout args) ;;
                  if recovered then ret 0%Z
                  else
                    logging ERROR "Device did not recover before timeout." ;;
                    ret 1%Z
            end
    end
    end.

End Program.

Arguments M : clear implicits.
Arguments run : clear implicits.

(* ================================================================== *)
(** ** Observing traces *)
(* ================================================================== *)

(** The child-process commands of a trace, in order. *)
Fixpoint commands (tr : list event) : list (list string) :=
  match tr with
  | [] => []
  | EvRun command _ _ :: rest => command :: commands rest
  | _ :: rest => commands rest
  end.

(** The sub-command of a tool invocation: the word after the tool path. *)
Definition verb (command : list string) : string :=
  match command with
  | _ :: v :: _ => v
  | _ => EmptyString
  end.

(** How many commands with sub-command [v] the trace holds. *)
Definition issued (v : string) (tr : list event) : nat :=
  List.length (List.filter (fun c => String.eqb (verb c) v) (commands tr)).

Definition is_sleep (e : event) : bool :=
  match e with EvSleep _ => true | _ => false end.

(** A listing result that the probe reads as healthy. *)
Definition reports_healthy (serial : option string) (cp : CompletedProcess) : bool :=
  (returncode cp =? 0)%Z
  && match parse_adb_devices (stdout cp) serial with
     | Some state => String.eqb state ADB_HEALTHY_STATE
     | None => false
     end.

(** The event of a device listing that came back healthy. *)
Definition is_healthy_probe (serial : option string) (e : event) : bool :=
  match e with
  | EvRun command _ (Exited cp) =>
      String.eqb (verb command) "devices" && reports_healthy serial cp
  | _ => false
  end.

(** The first action of [hard_reset]: the disable command, or in dry-run
    mode the announcement of it. *)
Definition is_hard_reset_start (e : event) : bool :=
  match e with
  | EvRun command _ _ => String.eqb (verb command) "disable"
  | EvLog INFO msg => PyStr.startswith "Dry run: would disable " msg
  | _ => false
  end.

(* ================================================================== *)
(** ** A scripted host, for concrete runs *)
(* ================================================================== *)

(** A host whose child processes answer from a script, whose clock moves
    only when the program sleeps, and whose tools are found by name. *)
Record Sim : Type := mk_sim
  { sim_replies : list spawn;
    sim_clock : Q;
    sim_admin : bool;
    sim_path : list string }.

#[export] Instance sim_host : Host Sim :=
  {| subprocess_run := fun _ _ w =>
       match sim_replies w with
       | [] => (LaunchFailed "FileNotFoundError", w)
       | r :: rest => (r, mk_sim rest (sim_clock w) (sim_admin w) (sim_path w))
       end;
     time_time := fun w => (sim_clock w, w);
     time_sleep := fun secs w =>
       mk_sim (sim_replies w) (sim_clock w + inject_Z secs) (sim_admin w) (sim_path w);
     sys_platform := fun _ => "win32";
     IsUserAnAdmin := fun w => Some (if sim_admin w then 1%Z else 0%Z);
     os_path_sep := fun _ => "\";
     os_path_altsep := fun _ => Some "/";
     os_path_isfile := fun _ _ => false;
     shutil_which := fun p w =>
       if existsb (String.eqb p) (sim_path w) then Some p else None |}.

Definition ok (out : string) : spawn := Exited (mk_cp 0 out "").
Definition failed (code : Z) (err : string) : spawn := Exited (mk_cp code "" err).

Definition default_args : Namespace :=
  mk_args "adb" "devcon" 4 None false false.

Definition unhealthy_listing : string :=
  "List of devices attached" ++ LF ++ "R58M12345 unauthorized" ++ LF.

Definition healthy_listing : string :=
  "List of devices attached" ++ LF ++ "R58M12345 device" ++ LF.

Definition findall_listing : string :=
  "USB\ROOT_HUB30\4&1    : USB Root Hub" ++ LF ++
  "USB\VID_1234&PID_0001\77 : android composite ADB interface" ++ LF ++
  "2 matching device(s) found." ++ LF.

(* ================================================================== *)
(** ** Reasoning about runs *)
(* ================================================================== *)

Section Reasoning.

Context {W : Type} {host : Host W}.

(** [wp m Q w]: running [m] from [w] ends in an outcome, a trace and a
    world that satisfy [Q]. *)
Definition wp {A} (m : M W A) (Q : outcome A -> list event -> W -> Prop) (w : W) : Prop :=
  Q (res (m w)) (evs (m w)) (fin (m w)).

(** The postcondition that [bind m k] hands to [m]. *)
Definition wp_then {A B} (k : A -> M W B) (Q : outcome B -> list event -> W -> Prop)
  : outcome A -> list event -> W -> Prop :=
  fun o tr w1 =>
    match o with
    | Ret a => wp (k a) (fun o' tr' w2 => Q o' (tr ++ tr')%list w2) w1
    | Raise e => Q (Raise e) tr w1
    | OutOfFuel => Q OutOfFuel tr w1
    end.

End Reasoning.

(** The debug line that [run_command] logs before it starts the child. *)
Definition running (command : list string) : event :=
  EvLog DEBUG ("Running command: " ++ PyStr.join " " command).

(** The runner reports a failure through the module's own exception class. *)
Definition signals_structured_error {A} (o : outcome A) : Prop :=
  exists msg, o = Raise (CommandError msg).

(** The line that [is_adb_healthy] logs for a completed listing. *)
Definition probe_log (serial : option string) (cp : CompletedProcess) : event :=
  if negb (returncode cp =? 0)%Z then
    EvLog WARNING ("adb devices failed: " ++ PyStr.strip (stderr cp))
  else
    match parse_adb_devices (stdout cp) serial with
    | None => EvLog INFO "No ADB device found."
    | Some state =>
        if String.eqb state ADB_HEALTHY_STATE
        then EvLog INFO ("ADB device is healthy (" ++ state ++ ").")
        else EvLog WARNING ("ADB device unhealthy (" ++ state ++ ").")
    end.

(** What a call of [run_command] raises when its child does not exit. *)
Definition spawn_error (command : list string) (r : spawn) : exn :=
  match r with
  | LaunchFailed why => OSError why
  | DecodeFailed why => UnicodeDecodeError why
  | _ => CommandError ("Command timed out: " ++ PyStr.join " " command)
  end.

(** The warning that [soft_reset] logs for a command that exits non-zero. *)
Definition soft_reset_log (args : list string) (cp : CompletedProcess) : list event :=
  if negb (returncode cp =? 0)%Z then
    [EvLog WARNING
       ("adb " ++ PyStr.join " " args ++ " failed: " ++ PyStr.strip (stderr cp))]
  else [].

(** Stage one of [find_devcon_device] on the result of the findall command. *)
Definition name_stage (findall : CompletedProcess) : option (string * string) :=
  if (returncode findall =? 0)%Z
  then first_name_match (parse_devcon_findall (stdout findall))
  else None.

(** Stage two of [find_devcon_device] on the result of the hwids command:
    what is returned, and what is logged. *)
Definition vid_stage (hwids_result : CompletedProcess) : option string :=
  if negb (returncode hwids_result =? 0)%Z then None
  else match first_vid_match (parse_devcon_hwids (stdout hwids_result)) with
       | Some (_, device) => Some (dev_id device)
       | None => None
       end.

Definition vid_stage_log (hwids_result : CompletedProcess) : list event :=
  if negb (returncode hwids_result =? 0)%Z then
    [EvLog ERROR ("devcon hwids failed: " ++ PyStr.strip (stderr hwids_result))]
  else match first_vid_match (parse_devcon_hwids (stdout hwids_result)) with
       | Some (hwid, _) => [EvLog INFO ("Matched device by VID/PID: " ++ hwid)]
       | None => []
       end.

Definition findall_command (devcon_path : string) : list string :=
  [devcon_path; "findall"; "=usb"].

Definition hwids_command (devcon_path : string) : list string :=
  [devcon_path; "hwids"; "=usb"].

Definition two_stage_findall : string :=
  "USB\ROOT_HUB30\4&1 : USB Root Hub" ++ LF ++
  "USB\VID_1234&PID_0001\77 : Android Composite ADB Interface" ++ LF.

Definition two_stage_hwids : string :=
  "USB\VID_04E8&PID_6860\R58M: SAMSUNG Mobile USB Composite Device" ++ LF ++
  "    USB\VID_04E8&PID_6860" ++ LF.

(* ================================================================== *)
(** ** What the claims say about a trace *)
(* ================================================================== *)

(** No event of the trace satisfies [P]. *)
Definition absent (P : event -> bool) (tr : list event) : Prop :=
  existsb P tr = false.

Definition healthy_log : event := EvLog INFO "ADB device is healthy (device).".

(** The trace ends with a device listing that came back healthy, followed
    only by the line that reports it. *)
Definition healthy_tail (serial : option string) (tr : list event) : Prop :=
  exists pre e, tr = (pre ++ [e; healthy_log])%list /\ is_healthy_probe serial e = true.

(** The three lifecycle commands were issued, in order. *)
Definition soft_reset_performed (tr : list event) : Prop :=
  List.map verb (commands tr) = ["kill-server"; "start-server"; "reconnect"].

(** A polling phase that ran out of time: it starts by reading the clock,
    ends on a clock reading at or past the deadline, and saw no healthy
    listing in between. *)
Definition poll_exhausted (serial : option string) (timeout : Z) (tr : list event) : Prop :=
  exists t0 mid t_end,
    tr = (EvTime t0 :: mid ++ [EvTime t_end])%list /\
    (t0 + inject_Z timeout <= t_end)%Q /\
    absent (is_healthy_probe serial) mid.

(** Every start of a hard reset in the trace comes after a soft reset and
    the exhausted polling phase that follows it. *)
Definition hard_reset_only_after_exhausted_poll
  (serial : option string) (timeout : Z) (tr : list event) : Prop :=
  forall pre h post,
    tr = (pre ++ h :: post)%list ->
    is_hard_reset_start h = true ->
    exists before soft poll between,
      pre = (before ++ soft ++ poll ++ between)%list /\
      soft_reset_performed soft /\
      poll_exhausted serial timeout poll.

(** What [is_adb_healthy] guarantees about its outcome and trace. *)
Definition probe_post (serial : option string) (o : outcome bool) (tr : list event) : Prop :=
  absent is_hard_reset_start tr /\ (issued "devices" tr <= 1)%nat /\
  match o with
  | Ret true => healthy_tail serial tr
  | _ => absent (is_healthy_probe serial) tr
  end.

(** What [soft_reset] guarantees. *)
Definition soft_post (o : outcome unit) (tr : list event) : Prop :=
  absent is_hard_reset_start tr /\ issued "devices" tr = 0%nat /\
  (o = Ret tt -> soft_reset_performed tr).

(** What [find_devcon_device] guarantees. *)
Definition find_post (tr : list event) : Prop :=
  absent is_hard_reset_start tr /\ issued "devices" tr = 0%nat.

(** What the polling loop guarantees, for its deadline. *)
Definition loop_post (serial : option string) (deadline : Q)
  (o : outcome bool) (tr : list event) : Prop :=
  absent is_hard_reset_start tr /\
  match o with
  | Ret true => healthy_tail serial tr
  | Ret false =>
      absent (is_healthy_probe serial) tr /\
      exists pre t, tr = (pre ++ [EvTime t])%list /\ (deadline <= t)%Q
  | _ => absent (is_healthy_probe serial) tr
  end.

(** What [poll_until_healthy] guarantees. *)
Definition poll_post (serial : option string) (timeout : Z)
  (o : outcome bool) (tr : list event) : Prop :=
  absent is_hard_reset_start tr /\
  match o with
  | Ret true => healthy_tail serial tr
  | Ret false => absent (is_healthy_probe serial) tr /\ poll_exhausted serial timeout tr
  | _ => absent (is_healthy_probe serial) tr
  end.

(** The host's clock never reads lower than it did at the previous
    reading. *)
Definition clock_never_steps_back {W : Type} {host : Host W} : Prop :=
  forall w : W, (fst (time_time w) <= fst (time_time (snd (time_time w))))%Q.

(** Some device listing of the trace came back healthy. *)
Definition healthy_observed (serial : option string) (tr : list event) : Prop :=
  existsb (is_healthy_probe serial) tr = true.

(** Both tools were resolved ([adb_path] and [devcon_path] are truthy). *)
Definition tools_found {W : Type} {host : Host W} (args : Namespace) (w : W) : bool :=
  match resolved (executable (ns_adb_path args) w),
        resolved (executable (ns_devcon_path args) w) with
  | Some _, Some _ => true
  | _, _ => false
  end.

(** The three ways a recovery fails, and the error line of each. *)
Inductive failure : Type := DeviceNotFound | HardResetFailed | TimedOutWaiting.

Definition failure_line (f : failure) (msg : string) : Prop :=
  match f with
  | DeviceNotFound => msg = "Unable to locate Android USB device for hard reset."
  | HardResetFailed =>
      PyStr.startswith "devcon disable failed: " msg = true \/
      PyStr.startswith "devcon enable failed: " msg = true
  | TimedOutWaiting => msg = "Device did not recover before timeout."
  end.

(** The trace ends with the error line of a failed recovery. *)
Definition recovery_failed (tr : list event) : Prop :=
  exists f pre msg, tr = (pre ++ [EvLog ERROR msg])%list /\ failure_line f msg.

(** What an exit code of [main] says about the host and the trace. *)
Definition classified (admin tools : bool) (serial : option string)
  (o : outcome Z) (tr : list event) : Prop :=
  match o with
  | Ret code =>
      (code = 3%Z /\ admin = false) \/
      (code = 2%Z /\ admin = true /\ tools = false) \/
      (code = 0%Z /\ admin = true /\ tools = true /\ healthy_tail serial tr) \/
      (code = 1%Z /\ admin = true /\ tools = true /\
       absent (is_healthy_probe serial) tr /\
       (1 <= issued "kill-server" tr)%nat /\ recovery_failed tr)
  | _ => True
  end.

(** What [hard_reset] guarantees. *)
Definition hard_post (o : outcome bool) (tr : list event) : Prop :=
  issued "devices" tr = 0%nat /\
  (o = Ret false -> exists pre msg,
      tr = (pre ++ [EvLog ERROR msg])%list /\ failure_line HardResetFailed msg).

(** Every child process the program starts is launched, exits and prints
    text that decodes: [subprocess.run] always returns a result. *)
Definition children_always_exit {W : Type} {host : Host W} : Prop :=
  forall command timeout (w : W),
    exists cp, fst (subprocess_run command timeout w) = Exited cp.

(** The host has a clock [clock] that the program reads, that no operation
    sets back, and that a sleep of [n] seconds advances by at least [n]. *)
Record host_progress {W : Type} {host : Host W} (clock : W -> Q) : Prop :=
  { read_after : forall w, (clock w <= fst (time_time w))%Q;
    read_before : forall w, (fst (time_time w) <= clock (snd (time_time w)))%Q;
    run_forward : forall command timeout w,
        (clock w <= clock (snd (subprocess_run command timeout w)))%Q;
    sleep_forward : forall secs w,
        (clock w + inject_Z secs <= clock (time_sleep secs w))%Q }.

(** The computation returned a value. *)
Definition returns {A : Type} (o : outcome A) : Prop := exists a, o = Ret a.

(** A host on which every child exits with code 0, whose device comes back
    at a given time, and whose clock moves only when the program sleeps. *)
Record Calm : Type := mk_calm { calm_clock : Q; calm_recovers_at : Q; calm_admin : bool }.

Definition calm_reply (command : list string) (w : Calm) : CompletedProcess :=
  if String.eqb (verb command) "devices" then
    mk_cp 0 (if Qle_bool (calm_recovers_at w) (calm_clock w)
             then healthy_listing else unhealthy_listing) ""
  else if String.eqb (verb command) "findall" then mk_cp 0 findall_listing ""
  else mk_cp 0 "" "".

#[export] Instance calm_host : Host Calm :=
  {| subprocess_run := fun command _ w => (Exited (calm_reply command w), w);
     time_time := fun w => (calm_clock w, w);
     time_sleep := fun secs w =>
       mk_calm (calm_clock w + inject_Z secs) (calm_recovers_at w) (calm_admin w);
     sys_platform := fun _ => "win32";
     IsUserAnAdmin := fun w => Some (if calm_admin w then 1%Z else 0%Z);
     os_path_sep := fun _ => "\";
     os_path_altsep := fun _ => Some "/";
     os_path_isfile := fun _ _ => false;
     shutil_which := fun p _ => Some p |}.

(** Concrete hosts and arguments for the example runs. *)
Definition sim (replies : list spawn) : Sim := mk_sim replies 100 true ["adb"; "devcon"].

Definition calm0 : Calm := mk_calm 100 102 true.

Definition no_wait_args : Namespace := mk_args "adb" "devcon" 0 None false false.

Definition dry_run_args : Namespace := mk_args "adb" "devcon" 4 None true false.

Definition scenario_C_replies : list spawn :=
  [ok unhealthy_listing; ok ""; ok ""; ok "";
   ok unhealthy_listing; ok unhealthy_listing;
   ok findall_listing; ok ""; ok "";
   ok ""; ok ""; ok ""; ok healthy_listing].


(* ================================================================== *)
(** ** Which record of a listing is read *)
(* ================================================================== *)

(** The records of a listing: its lines, stripped, blank ones dropped. *)
Definition record_lines (output : string) : list string :=
  List.map PyStr.strip
    (List.filter (fun line => PyStr.truthy (PyStr.strip line)) (PyStr.splitlines output)).

(** A header line: it starts with "list of devices", in any case. *)
Definition is_header (line : string) : Prop :=
  exists rest, PyStr.lower line = "list of devices" ++ rest.

(** The serial filter lets the serial through: there is no filter, the
    filter is empty, or it is that serial. *)
Definition wanted (serial : option string) (device_serial : string) : Prop :=
  match serial with
  | None => True
  | Some s => s = EmptyString \/ device_serial = s
  end.

(** [line] is a record the filter lets through, with state token [state]:
    it is no header, it has at least two tokens, and its first token is
    wanted. *)
Definition is_record (serial : option string) (line state : string) : Prop :=
  ~ is_header line /\
  exists device_serial rest,
    PyStr.split line = device_serial :: state :: rest /\ wanted serial device_serial.

(** The selected record of a listing has state token [state]: it is the
    first of the record lines that is a record the filter lets through. *)
Definition selected_state (serial : option string) (output state : string) : Prop :=
  exists before line after,
    record_lines output = (before ++ line :: after)%list /\
    (forall l, In l before -> forall st, ~ is_record serial l st) /\
    is_record serial line state.

(** One turn of the loop of [parse_adb_devices]: the state it returns at
    this line, or [None] when it goes on to the next. *)
Definition line_state (serial : option string) (line : string) : option string :=
  if PyStr.startswith "list of devices" (PyStr.lower line) then None
  else match PyStr.split line with
       | device_serial :: state :: _ =>
           if serial_rejects serial device_serial then None else Some state
       | _ => None
       end.

(** A listing that starts with the lines the bridge prints when it has to
    start its server. *)
Definition banner_listing : string :=
  "* daemon not running; starting now at tcp:5037" ++ LF ++
  "* daemon started successfully" ++ LF ++
  "List of devices attached" ++ LF ++
  "R58M12345 device" ++ LF.

(** A host whose clock readings and child results both come from scripts:
    the clock can read anything, also less than before. *)
Record Ticker : Type := mk_ticker
  { tick_readings : list Q; tick_replies : list spawn }.

#[export] Instance ticker_host : Host Ticker :=
  {| subprocess_run := fun _ _ w =>
       match tick_replies w with
       | [] => (LaunchFailed "FileNotFoundError", w)
       | r :: rest => (r, mk_ticker (tick_readings w) rest)
       end;
     time_time := fun w =>
       match tick_readings w with
       | [] => (0, w)
       | t :: rest => (t, mk_ticker rest (tick_replies w))
       end;
     time_sleep := fun _ w => w;
     sys_platform := fun _ => "linux";
     IsUserAnAdmin := fun _ => None;
     os_path_sep := fun _ => "/";
     os_path_altsep := fun _ => None;
     os_path_isfile := fun _ _ => true;
     shutil_which := fun p _ => Some p |}.

(** The clock is set back by one second between the first two readings. *)
Definition set_back : Ticker := mk_ticker [100; 99] [ok healthy_listing].


(* ================================================================== *)
(** ** Further observations on listings and traces *)
(* ================================================================== *)

(** The text holds no colon. *)
Definition colon_free (s : string) : Prop := PyStr.split_colon s = None.

(** The lines of a listing that are blank once stripped. *)
Definition blank_lines (output : string) : nat :=
  List.length
    (List.filter (fun line => negb (PyStr.truthy (PyStr.strip line)))
       (PyStr.splitlines output)).

(** The four characters that follow ["USB\VID_"] in a hardware ID. *)
Definition vid_field (hwid : string) : string := String.substring 8 4 hwid.

(** A hardware ID as [parse_devcon_hwids] stores it: the fixed frame around
    two groups of four upper-case hexadecimal digits. *)
Definition canonical_hwid (hwid : string) : Prop :=
  exists a b c d e f g h,
    hwid = "USB\VID_" ++ String a (String b (String c (String d
             ("&PID_" ++ String e (String f (String g (String h EmptyString))))))) /\
    Re.is_upper_hex a = true /\ Re.is_upper_hex b = true /\
    Re.is_upper_hex c = true /\ Re.is_upper_hex d = true /\
    Re.is_upper_hex e = true /\ Re.is_upper_hex f = true /\
    Re.is_upper_hex g = true /\ Re.is_upper_hex h = true.

(** Every hardware ID of the entry has the stored form. *)
Definition canonical_device (d : hwid_device) : Prop :=
  Forall canonical_hwid (dev_hwids d).

(** The loop invariant of [parse_devcon_hwids]: the entries collected so
    far and the entry being read hold only hardware IDs of the stored form. *)
Definition canonical_state (st : list hwid_device * option hwid_device) : Prop :=
  Forall canonical_device (fst st) /\
  (forall c, snd st = Some c -> canonical_device c).

(** A child process that was started with a timeout. *)
Definition is_timed (e : event) : bool :=
  match e with
  | EvRun _ (Some _) _ => true
  | _ => false
  end.

(** An interaction with the host other than logging. *)
Definition is_action (e : event) : bool :=
  match e with
  | EvRun _ _ _ | EvTime _ | EvSleep _ => true
  | EvBasicConfig _ | EvLog _ _ => false
  end.

(** The trace without its logging events. *)
Definition actions (tr : list event) : list event := List.filter is_action tr.

(** What a component other than the resets leaves in the trace: no
    reset or enumeration command, and no child with a timeout. *)
Definition no_reset_commands (tr : list event) : Prop :=
  issued "disable" tr = 0%nat /\ issued "enable" tr = 0%nat /\
  issued "kill-server" tr = 0%nat /\ issued "findall" tr = 0%nat /\
  absent is_timed tr.

Definition soft_budget (tr : list event) : Prop :=
  issued "disable" tr = 0%nat /\ issued "enable" tr = 0%nat /\
  (issued "kill-server" tr <= 1)%nat /\ issued "findall" tr = 0%nat /\
  absent is_timed tr.

Definition find_budget (tr : list event) : Prop :=
  issued "disable" tr = 0%nat /\ issued "enable" tr = 0%nat /\
  issued "kill-server" tr = 0%nat /\ (issued "findall" tr <= 1)%nat /\
  absent is_timed tr.

Definition hard_budget (dry_run : bool) (tr : list event) : Prop :=
  (issued "enable" tr <= issued "disable" tr)%nat /\
  (issued "disable" tr <= 1)%nat /\
  (dry_run = true -> issued "disable" tr = 0%nat) /\
  issued "kill-server" tr = 0%nat /\ issued "findall" tr = 0%nat /\
  absent is_timed tr.

(** The command budget of one run of [main]. *)
Definition main_budget (dry_run : bool) (tr : list event) : Prop :=
  (issued "disable" tr <= 1)%nat /\
  (issued "enable" tr <= issued "disable" tr)%nat /\
  (issued "kill-server" tr <= 2)%nat /\
  (issued "findall" tr <= 1)%nat /\
  (dry_run = true -> issued "disable" tr = 0%nat /\ issued "enable" tr = 0%nat) /\
  absent is_timed tr.

(** A child started without a timeout never times out (as
    [subprocess.run] with [timeout=None] behaves). *)
Definition untimed_children_never_time_out {W : Type} {host : Host W} : Prop :=
  forall command (w : W), fst (subprocess_run command None w) <> TimedOut.

(** The computation does not end with the exception of a child that
    timed out, neither as [subprocess.run] raises it nor as the runner
    re-raises it. *)
Definition no_timeout_error {A : Type} (o : outcome A) : Prop :=
  forall e, o = Raise e -> e <> TimeoutExpired /\ forall msg, e <> CommandError msg.

(** Every character of the text satisfies [p]. *)
Fixpoint every (p : ascii -> bool) (s : string) : bool :=
  match s with
  | EmptyString => true
  | String c r => p c && every p r
  end.

(** A listing in the format of the findall command: one line
    [<instance id>: <name>] per entry. *)
Fixpoint format_findall (entries : list (string * string)) : string :=
  match entries with
  | [] => EmptyString
  | (instance_id, name) :: rest =>
      instance_id ++ ": " ++ name ++ LF ++ format_findall rest
  end.

(** An identifier or name that such a line can carry unchanged: nothing to
    strip and no line break inside. *)
Definition plain (s : string) : Prop :=
  PyStr.strip s = s /\ every (fun c => negb (PyStr.is_linebreak c)) s = true.

(** More concrete hosts and inputs for the example runs. *)
Definition unprivileged : Sim := mk_sim [] 100 false [].

Definition failed_listing : CompletedProcess := mk_cp 1 healthy_listing "cannot connect to daemon ".

Definition two_entries : list (string * string) :=
  [("USB\ROOT_HUB30\4&1", "USB Root Hub"); ("USB\VID_18D1&PID_4EE7\77", "Pixel: ADB Interface")].
Example splitlines_ex :
  PyStr.splitlines ("a" ++ String "013" (String "010" (String "010" "b  c" ++ String "010" "")))
  = ["a"; ""; "b  c"].
Proof. reflexivity. Qed.

Example split_ex : PyStr.split "  emulator-5554   device  usb:1 " = ["emulator-5554"; "device"; "usb:1"].
Proof. reflexivity. Qed.

Example strip_ex : PyStr.strip "  a b  " = "a b".
Proof. reflexivity. Qed.

Example parse_adb_first : parse_adb_devices adb_listing None = Some "offline".
Proof. reflexivity. Qed.

Example parse_adb_serial : parse_adb_devices adb_listing (Some "R58M12345") = Some "device".
Proof. reflexivity. Qed.

Example parse_adb_absent : parse_adb_devices adb_listing (Some "nope") = None.
Proof. reflexivity. Qed.

Example parse_hwids_ex :
  parse_devcon_hwids hwids_listing =
  [ mk_device "USB\ROOT_HUB30\4&1" "USB Root Hub" [];
    mk_device "USB\VID_04E8&PID_6860\R58M" "SAMSUNG Mobile USB Composite Device"
      ["USB\VID_04E8&PID_6860"; "USB\VID_04E8&PID_6860"] ].
Proof. reflexivity. Qed.

Lemma Qlt_bool_iff (a b : Q) : Qlt_bool a b = true <-> (a < b)%Q.
Proof.
  unfold Qlt_bool. rewrite negb_true_iff, <- not_true_iff_false, Qle_bool_iff.
  split; intro Hab.
  - apply Qnot_le_lt; exact Hab.
  - apply Qlt_not_le; exact Hab.
Qed.

Lemma float_of_int_some (z : Z) (q : Q) : float_of_int z = Some q -> q = inject_Z z.
Proof. unfold float_of_int. destruct (Z.abs z <? float_int_limit)%Z; congruence. Qed.

Lemma float_of_int_in_range (z : Z) :
  (Z.abs z < float_int_limit)%Z -> float_of_int z = Some (inject_Z z).
Proof. intro H. unfold float_of_int. apply Z.ltb_lt in H. now rewrite H. Qed.

Lemma float_of_int_out_of_range (z : Z) :
  (float_int_limit <= Z.abs z)%Z -> float_of_int z = None.
Proof. intro H. unfold float_of_int. apply Z.ltb_ge in H. now rewrite H. Qed.

Lemma commands_app (a b : list event) : commands (a ++ b) = (commands a ++ commands b)%list.
Proof.
  induction a as [|e a IH]; simpl; [reflexivity|].
  destruct e; simpl; rewrite ?IH; reflexivity.
Qed.

Lemma issued_app (v : string) (a b : list event) :
  issued v (a ++ b) = (issued v a + issued v b)%nat.
Proof.
  unfold issued. rewrite commands_app, filter_app, length_app. reflexivity.
Qed.

(** Scenario A: healthy at the first probe. *)
Example scenario_A :
  let r := main 10 default_args (mk_sim [ok healthy_listing] 100 true ["adb"; "devcon"]) in
  res r = Ret 0%Z /\ commands (evs r) = [["adb"; "devices"]].
Proof. vm_compute. split; reflexivity. Qed.

(** Scenario B: never healthy, timeout 4 s, nothing to locate. *)
Example scenario_B :
  let r := main 10 default_args
             (mk_sim [ok unhealthy_listing; ok ""; ok ""; failed 1 "";
                      ok unhealthy_listing; ok unhealthy_listing;
                      ok ""; ok ""] 100 true ["adb"; "devcon"]) in
  res r = Ret 1%Z /\ issued "disable" (evs r) = 0%nat /\
  commands (evs r) =
    [["adb"; "devices"]; ["adb"; "kill-server"]; ["adb"; "start-server"];
     ["adb"; "reconnect"]; ["adb"; "devices"]; ["adb"; "devices"];
     ["devcon"; "findall"; "=usb"]; ["devcon"; "hwids"; "=usb"]].
Proof. vm_compute. repeat split; reflexivity. Qed.

(** Scenario C: unhealthy until the hard reset, then healthy. *)
Example scenario_C :
  let r := main 10 default_args
             (mk_sim [ok unhealthy_listing; ok ""; ok ""; ok "";
                      ok unhealthy_listing; ok unhealthy_listing;
                      ok findall_listing; ok ""; ok "";
                      ok ""; ok ""; ok ""; ok healthy_listing]
                100 true ["adb"; "devcon"]) in
  res r = Ret 0%Z /\ issued "disable" (evs r) = 1%nat /\ issued "enable" (evs r) = 1%nat.
Proof. vm_compute. repeat split; reflexivity. Qed.

Unset Implicit Arguments.

(* ================================================================== *)
(** ** Strings *)
(* ================================================================== *)

Lemma split_from_truthy (s cur : string) :
  Forall (fun t => PyStr.truthy t = true) (PyStr.split_from cur s).
Proof.
  revert cur. induction s as [|c s IH]; intro cur; simpl.
  - destruct (PyStr.truthy cur) eqn:E; auto.
  - destruct (PyStr.is_space c); [destruct (PyStr.truthy cur) eqn:E|]; auto.
Qed.

Lemma parse_adb_lines_truthy (lines : list string) (serial : option string) (state : string) :
  parse_adb_lines lines serial = Some state -> PyStr.truthy state = true.
Proof.
  induction lines as [|line rest IH]; simpl; [discriminate|].
  destruct (PyStr.startswith _ _); [exact IH|].
  pose proof (split_from_truthy line EmptyString) as Htok. fold (PyStr.split line) in Htok.
  destruct (PyStr.split line) as [|device_serial [|st tl]]; try exact IH.
  destruct (serial_rejects serial device_serial); [exact IH|].
  intros [= <-]. inversion Htok as [|? ? _ Htl]; subst. inversion Htl; subst. assumption.
Qed.

Lemma parse_adb_devices_truthy (output : string) (serial : option string) (state : string) :
  parse_adb_devices output serial = Some state -> PyStr.truthy state = true.
Proof.
  unfold parse_adb_devices.
  destruct (List.map _ _) eqn:E; [discriminate|]. apply parse_adb_lines_truthy.
Qed.

Lemma startswith_iff (p s : string) :
  PyStr.startswith p s = true <-> exists post, s = p ++ post.
Proof.
  unfold PyStr.startswith. revert s. induction p as [|a p IH]; intro s.
  - destruct s; simpl; split; eauto.
  - destruct s as [|b s]; simpl; [split; [discriminate|intros [post [=]]]|].
    destruct (ascii_dec a b) as [->|Hne].
    + rewrite IH. split; intros [post Hpost]; exists post; [now subst|now inversion Hpost].
    + split; [discriminate|]. intros [post [= Hab _]]. now elim Hne.
Qed.

Lemma contains_iff (needle hay : string) :
  PyStr.contains needle hay = true <-> exists pre post, hay = pre ++ needle ++ post.
Proof.
  induction hay as [|c hay IH]; cbn [PyStr.contains]; rewrite orb_true_iff, startswith_iff.
  - split.
    + intros [[post Hpost]|Hf]; [exists EmptyString, post; exact Hpost|discriminate].
    + intros [[|? ?] [post Hpost]]; [left; exists post; exact Hpost|discriminate].
  - rewrite IH. split.
    + intros [[post Hpost]|[pre [post Hpost]]].
      * exists EmptyString, post. exact Hpost.
      * exists (String c pre), post. simpl. now rewrite Hpost.
    + intros [[|a pre] [post Hpost]].
      * left. exists post. exact Hpost.
      * right. exists pre, post. simpl in Hpost. now inversion Hpost.
Qed.

Lemma serial_rejects_wanted (serial : option string) (device_serial : string) :
  serial_rejects serial device_serial = false <-> wanted serial device_serial.
Proof.
  destruct serial as [s|]; simpl; [|tauto].
  destruct s as [|c s]; simpl; [tauto|].
  rewrite negb_false_iff, String.eqb_eq. split; [auto|]. intros [H|H]; [discriminate|auto].
Qed.

Lemma line_state_record (serial : option string) (line state : string) :
  line_state serial line = Some state <-> is_record serial line state.
Proof.
  unfold line_state, is_record, is_header.
  destruct (PyStr.startswith "list of devices" (PyStr.lower line)) eqn:Hh.
  - apply startswith_iff in Hh. split; [discriminate|]. intros [Hn _]. now elim Hn.
  - assert (Hnot : ~ exists rest, PyStr.lower line = "list of devices" ++ rest).
    { intro H. apply startswith_iff in H. congruence. }
    destruct (PyStr.split line) as [|d [|st tl]].
    + split; [discriminate|]. intros [_ (? & ? & [=] & _)].
    + split; [discriminate|]. intros [_ (? & ? & [=] & _)].
    + destruct (serial_rejects serial d) eqn:Hr.
      * split; [discriminate|]. intros [_ (d' & rest & [= <- <- <-] & Hw)].
        apply serial_rejects_wanted in Hw. congruence.
      * apply serial_rejects_wanted in Hr. split.
        -- intros [= <-]. split; [assumption|]. now exists d, tl.
        -- intros [_ (d' & rest & [= <- <- <-] & _)]. reflexivity.
Qed.

Lemma parse_adb_lines_step (serial : option string) (line : string) (rest : list string) :
  parse_adb_lines (line :: rest) serial =
  match line_state serial line with
  | Some state => Some state
  | None => parse_adb_lines rest serial
  end.
Proof.
  unfold line_state. cbn [parse_adb_lines].
  destruct (PyStr.startswith _ _); [reflexivity|].
  destruct (PyStr.split line) as [|d [|st tl]]; try reflexivity.
  destruct (serial_rejects serial d); reflexivity.
Qed.

Lemma parse_adb_lines_selects (lines : list string) (serial : option string) (state : string) :
  parse_adb_lines lines serial = Some state <->
  exists before line after,
    lines = (before ++ line :: after)%list /\
    (forall l, In l before -> forall st, ~ is_record serial l st) /\
    is_record serial line state.
Proof.
  induction lines as [|line rest IH].
  - split; [discriminate|]. intros (before & l & after & Heq & _).
    destruct before; discriminate Heq.
  - rewrite parse_adb_lines_step.
    destruct (line_state serial line) as [st|] eqn:Hline.
    + apply line_state_record in Hline. split.
      * intros [= <-]. exists [], line, rest.
        split; [reflexivity|]. split; [|assumption]. intros l [].
      * intros (before & l & after & Heq & Hbefore & Hrec).
        destruct before as [|b before]; simpl in Heq; injection Heq as <- Hrest.
        -- apply line_state_record in Hline, Hrec. congruence.
        -- now elim (Hbefore line (or_introl eq_refl) st).
    + assert (Hnone : forall st, ~ is_record serial line st).
      { intros st Hrec. apply line_state_record in Hrec. congruence. }
      rewrite IH. split.
      * intros (before & l & after & -> & Hbefore & Hrec).
        exists (line :: before), l, after.
        split; [reflexivity|]. split; [|assumption].
        intros l0 [<-|Hin]; [exact Hnone|now apply Hbefore].
      * intros (before & l & after & Heq & Hbefore & Hrec).
        destruct before as [|b before]; simpl in Heq; injection Heq as <- Hrest.
        -- now elim (Hnone state).
        -- exists before, l, after.
           split; [assumption|]. split; [|assumption].
           intros l0 Hin. apply Hbefore. now right.
Qed.

Lemma parse_adb_devices_lines (output : string) (serial : option string) :
  parse_adb_devices output serial = parse_adb_lines (record_lines output) serial.
Proof.
  unfold parse_adb_devices, record_lines. now destruct (List.map _ _).
Qed.

Lemma parse_adb_devices_selects (output : string) (serial : option string) (state : string) :
  parse_adb_devices output serial = Some state <-> selected_state serial output state.
Proof. rewrite parse_adb_devices_lines. apply parse_adb_lines_selects. Qed.

(* ================================================================== *)
(** ** The monad and the runner *)
(* ================================================================== *)

Section Proofs.

Context {W : Type} {host : Host W}.

Lemma wp_bind {A B} (m : M W A) (k : A -> M W B) Q w :
  wp m (wp_then k Q) w -> wp (bind m k) Q w.
Proof.
  unfold wp, wp_then, bind. destruct (res (m w)); simpl; auto.
Qed.

Lemma wp_mono {A} (m : M W A) (Q Q' : outcome A -> list event -> W -> Prop) w :
  wp m Q w -> (forall o tr w', Q o tr w' -> Q' o tr w') -> wp m Q' w.
Proof. unfold wp. auto. Qed.

Lemma bind_ret_run {A B} {m : M W A} (k : A -> M W B) {w a tr w1} :
  m w = mk_run (Ret a) tr w1 ->
  bind m k w = mk_run (res (k a w1)) (tr ++ evs (k a w1)) (fin (k a w1)).
Proof. intro Hm. unfold bind. rewrite Hm. reflexivity. Qed.

Lemma bind_raise_run {A B} {m : M W A} (k : A -> M W B) {w e tr w1} :
  m w = mk_run (Raise e) tr w1 -> bind m k w = mk_run (Raise e) tr w1.
Proof. intro Hm. unfold bind. rewrite Hm. reflexivity. Qed.

(** Every run of [run_command], by what the host does with the child. *)
Lemma run_command_run (command : list string) (timeout : option Z) (w : W) :
  run_command command timeout w =
  let '(r, w') := subprocess_run command timeout w in
  mk_run
    match r with
    | Exited cp => Ret cp
    | TimedOut => Raise (CommandError ("Command timed out: " ++ PyStr.join " " command))
    | LaunchFailed why => Raise (OSError why)
    | DecodeFailed why => Raise (UnicodeDecodeError why)
    end
    [running command; EvRun command timeout r] w'.
Proof.
  unfold run_command, bind, try_except, logging, emit, subprocess_run_, raise, running.
  simpl. destruct (subprocess_run command timeout w) as [[cp| |why|why] w']; reflexivity.
Qed.

Lemma run_command_exited {command timeout w cp w'} :
  subprocess_run command timeout w = (Exited cp, w') ->
  run_command command timeout w =
  mk_run (Ret cp) [running command; EvRun command timeout (Exited cp)] w'.
Proof. intro Hrun. rewrite run_command_run, Hrun. reflexivity. Qed.

(** Every run of [is_adb_healthy]. *)
Lemma is_adb_healthy_run (adb_path : string) (serial : option string) (w : W) :
  is_adb_healthy adb_path serial w =
  let command := [adb_path; "devices"] in
  let '(r, w') := subprocess_run command None w in
  match r with
  | Exited cp =>
      mk_run (Ret (reports_healthy serial cp))
        [running command; EvRun command None r; probe_log serial cp] w'
  | _ => mk_run (Raise (spawn_error command r)) [running command; EvRun command None r] w'
  end.
Proof.
  unfold is_adb_healthy, adb_command, bind. rewrite run_command_run.
  destruct (subprocess_run [adb_path; "devices"] None w) as [[cp| |why|why] w']; try reflexivity.
  cbn [res evs fin]. unfold reports_healthy, probe_log.
  destruct (returncode cp =? 0)%Z; [|reflexivity].
  cbn [negb andb]. destruct (parse_adb_devices (stdout cp) serial) as [state|]; [|reflexivity].
  destruct (String.eqb state ADB_HEALTHY_STATE); reflexivity.
Qed.

(** Every run of the body of the loop of [soft_reset]. *)
Lemma soft_reset_step_run (adb_path : string) (args : list string) (w : W) :
  soft_reset_step adb_path args w =
  let command := adb_path :: args in
  let '(r, w') := subprocess_run command None w in
  match r with
  | Exited cp =>
      mk_run (Ret tt)
        ([running command; EvRun command None r] ++ soft_reset_log args cp) w'
  | _ => mk_run (Raise (spawn_error command r)) [running command; EvRun command None r] w'
  end.
Proof.
  unfold soft_reset_step, adb_command, bind. rewrite run_command_run.
  destruct (subprocess_run (adb_path :: args) None w) as [[cp| |why|why] w']; try reflexivity.
  cbn [res evs fin]. unfold soft_reset_log.
  destruct (returncode cp =? 0)%Z; reflexivity.
Qed.

Lemma soft_reset_step_exited {adb_path args w cp w'} :
  subprocess_run (adb_path :: args) None w = (Exited cp, w') ->
  soft_reset_step adb_path args w =
  mk_run (Ret tt)
    ([running (adb_path :: args); EvRun (adb_path :: args) None (Exited cp)]
     ++ soft_reset_log args cp) w'.
Proof. intro Hrun. rewrite soft_reset_step_run. cbv zeta. rewrite Hrun. reflexivity. Qed.

(** Every run of [find_devcon_device]. *)
Lemma find_devcon_device_run (devcon_path : string) (w : W) :
  find_devcon_device devcon_path w =
  let c1 := findall_command devcon_path in
  let c2 := hwids_command devcon_path in
  let '(r1, w1) := subprocess_run c1 None w in
  match r1 with
  | Exited cp1 =>
      match name_stage cp1 with
      | Some (instance_id, name) =>
          mk_run (Ret (Some instance_id))
            [running c1; EvRun c1 None r1; EvLog INFO ("Matched device by name: " ++ name)]
            w1
      | None =>
          let '(r2, w2) := subprocess_run c2 None w1 in
          match r2 with
          | Exited cp2 =>
              mk_run (Ret (vid_stage cp2))
                ([running c1; EvRun c1 None r1; running c2; EvRun c2 None r2]
                 ++ vid_stage_log cp2) w2
          | _ =>
              mk_run (Raise (spawn_error c2 r2))
                [running c1; EvRun c1 None r1; running c2; EvRun c2 None r2] w2
          end
      end
  | _ => mk_run (Raise (spawn_error c1 r1)) [running c1; EvRun c1 None r1] w1
  end.
Proof.
  unfold find_devcon_device, findall_command, hwids_command, bind.
  rewrite run_command_run.
  destruct (subprocess_run [devcon_path; "findall"; "=usb"] None w) as [[cp1| |why|why] w1];
    try reflexivity.
  cbn [res evs fin]. fold (name_stage cp1).
  destruct (name_stage cp1) as [[instance_id name]|]; [reflexivity|].
  rewrite run_command_run.
  destruct (subprocess_run [devcon_path; "hwids"; "=usb"] None w1) as [[cp2| |why|why] w2];
    try reflexivity.
  cbn [res evs fin]. unfold vid_stage, vid_stage_log.
  destruct (returncode cp2 =? 0)%Z; [|reflexivity]. cbn [negb].
  destruct (first_vid_match _) as [[hwid device]|]; reflexivity.
Qed.

Lemma first_name_match_app (before after : list (string * string)) (entry : string * string) :
  (forall e, In e before -> name_matches (snd e) = false) ->
  name_matches (snd entry) = true ->
  first_name_match (before ++ entry :: after) = Some entry.
Proof.
  intros Hbefore Hentry. induction before as [|[i n] before IH]; simpl.
  - destruct entry as [i n]. simpl in Hentry. now rewrite Hentry.
  - pose proof (Hbefore (i, n) (or_introl eq_refl)) as Hin. simpl in Hin.
    rewrite Hin. apply IH.
    intros e He. apply Hbefore. now right.
Qed.

(* ================================================================ *)
(** ** What each component can leave in the trace *)
(* ================================================================ *)

Lemma absent_app (P : event -> bool) (a b : list event) :
  absent P (a ++ b) <-> absent P a /\ absent P b.
Proof. unfold absent. rewrite existsb_app, orb_false_iff. reflexivity. Qed.

Lemma absent_cons (P : event -> bool) (e : event) (tr : list event) :
  absent P (e :: tr) <-> P e = false /\ absent P tr.
Proof. unfold absent. simpl. rewrite orb_false_iff. reflexivity. Qed.

Lemma absent_nil (P : event -> bool) : absent P [].
Proof. reflexivity. Qed.

Ltac absent_tac :=
  repeat match goal with
         | H : absent _ (_ ++ _) |- _ => apply absent_app in H; destruct H
         end;
  repeat (rewrite absent_app || rewrite absent_cons);
  repeat split; solve [assumption | reflexivity | apply absent_nil].

Lemma no_listing_no_healthy_probe (serial : option string) (tr : list event) :
  issued "devices" tr = 0%nat -> absent (is_healthy_probe serial) tr.
Proof.
  unfold absent. induction tr as [|e tr IH]; [reflexivity|].
  destruct e as [command timeout r| | | |]; try exact IH.
  unfold issued. simpl. destruct (String.eqb (verb command) "devices") eqn:E.
  - discriminate.
  - intro H0. destruct r; simpl; apply IH; exact H0.
Qed.

Lemma healthy_tail_app (serial : option string) (a b : list event) :
  healthy_tail serial b -> healthy_tail serial (a ++ b).
Proof.
  intros (pre & e & -> & He). exists (a ++ pre)%list, e. now rewrite app_assoc.
Qed.

Lemma probe_log_is_log (serial : option string) (cp : CompletedProcess) :
  exists lvl msg,
    probe_log serial cp = EvLog lvl msg /\ is_hard_reset_start (EvLog lvl msg) = false.
Proof.
  unfold probe_log. destruct (negb _); [eexists _, _; split; reflexivity|].
  destruct (parse_adb_devices _ _); [|eexists _, _; split; reflexivity].
  destruct (String.eqb _ _); eexists _, _; split; reflexivity.
Qed.

Lemma is_adb_healthy_spec (adb_path : string) (serial : option string) (w : W) :
  wp (is_adb_healthy adb_path serial) (fun o tr _ => probe_post serial o tr) w.
Proof.
  unfold wp, probe_post. rewrite is_adb_healthy_run. cbv zeta.
  destruct (subprocess_run [adb_path; "devices"] None w) as [[cp| |why|why] w'];
    cbn [res evs fin]; try (repeat split; (reflexivity || (cbv; lia))).
  destruct (probe_log_is_log serial cp) as (lvl & msg & Hlog & Hnot).
  split; [|split].
  - rewrite Hlog. unfold absent. cbn [existsb]. rewrite Hnot. reflexivity.
  - rewrite Hlog. cbv. lia.
  - destruct (reports_healthy serial cp) eqn:Hh.
    + exists [running [adb_path; "devices"]], (EvRun [adb_path; "devices"] None (Exited cp)).
      split; [|simpl; exact Hh].
      unfold probe_log, healthy_log. unfold reports_healthy in Hh.
      apply andb_true_iff in Hh. destruct Hh as [Hrc Hst]. rewrite Hrc. cbn [negb].
      destruct (parse_adb_devices (stdout cp) serial) as [state|]; [|discriminate].
      rewrite Hst. apply String.eqb_eq in Hst. subst state. reflexivity.
    + rewrite Hlog. unfold absent. cbn. rewrite Hh. reflexivity.
Qed.

Lemma soft_reset_step_spec (adb_path v : string) (w : W) :
  String.eqb v "disable" = false ->
  String.eqb v "devices" = false ->
  wp (soft_reset_step adb_path [v])
     (fun o tr _ =>
        absent is_hard_reset_start tr /\ issued "devices" tr = 0%nat /\
        (o = Ret tt -> List.map verb (commands tr) = [v])) w.
Proof.
  intros Hdis Hdev. unfold wp. rewrite soft_reset_step_run. cbv zeta.
  destruct (subprocess_run [adb_path; v] None w) as [[cp| |why|why] w'];
    cbn [res evs fin]; unfold absent, issued, soft_reset_log;
    try destruct (negb _); cbn; rewrite ?Hdis, ?Hdev; repeat split; discriminate.
Qed.

Lemma soft_reset_spec (adb_path : string) (w : W) :
  wp (soft_reset adb_path) (fun o tr _ => soft_post o tr) w.
Proof.
  unfold soft_reset, ADB_SOFT_RESET_COMMANDS. cbn [for_each].
  apply wp_bind. eapply wp_mono; [apply soft_reset_step_spec; reflexivity|].
  intros o1 tr1 w1 (Ha1 & Hi1 & Hc1).
  destruct o1 as [[]| |]; cbn [wp_then];
    [|repeat split; (assumption || discriminate)..].
  apply wp_bind. eapply wp_mono; [apply soft_reset_step_spec; reflexivity|].
  intros o2 tr2 w2 (Ha2 & Hi2 & Hc2).
  destruct o2 as [[]| |]; cbn [wp_then]; unfold soft_post;
    rewrite ?absent_app, ?issued_app, ?Hi1, ?Hi2;
    [|repeat split; (assumption || discriminate)..].
  apply wp_bind. eapply wp_mono; [apply soft_reset_step_spec; reflexivity|].
  intros o3 tr3 w3 (Ha3 & Hi3 & Hc3).
  destruct o3 as [[]| |]; cbn [wp_then]; unfold wp; cbn [ret res evs fin];
    rewrite ?absent_app, ?issued_app, ?Hi1, ?Hi2, ?Hi3;
    [|repeat split; (assumption || discriminate)..].
  repeat split; try assumption; try apply absent_nil.
  intros _. unfold soft_reset_performed.
  rewrite !commands_app, !map_app, Hc1, Hc2, Hc3 by reflexivity. reflexivity.
Qed.

Lemma find_devcon_device_spec (devcon_path : string) (w : W) :
  wp (find_devcon_device devcon_path) (fun _ tr _ => find_post tr) w.
Proof.
  unfold wp, find_post. rewrite find_devcon_device_run. cbv zeta.
  destruct (subprocess_run (findall_command devcon_path) None w) as [[cp1| |why1|why1] w1];
    try (split; reflexivity).
  destruct (name_stage cp1) as [[instance_id name]|]; [split; reflexivity|].
  destruct (subprocess_run (hwids_command devcon_path) None w1) as [[cp2| |why2|why2] w2];
    try (split; reflexivity).
  cbn [evs]. unfold vid_stage_log.
  destruct (negb _); [split; reflexivity|].
  destruct (first_vid_match _) as [[hwid device]|]; split; reflexivity.
Qed.

Lemma run_command_spec (command : list string) (timeout : option Z) (w : W) :
  wp (run_command command timeout)
     (fun _ tr _ => exists r, tr = [running command; EvRun command timeout r]) w.
Proof.
  unfold wp. rewrite run_command_run.
  destruct (subprocess_run command timeout w) as [r w']. now exists r.
Qed.

Lemma hard_reset_spec (devcon_path instance_id : string) (dry_run : bool) (w : W) :
  wp (hard_reset devcon_path instance_id dry_run) (fun o tr _ => hard_post o tr) w.
Proof.
  unfold hard_reset, hard_post. destruct dry_run; [split; [reflexivity|discriminate]|].
  apply wp_bind. eapply wp_mono; [apply run_command_spec|].
  intros o1 tr1 w1 [r1 ->].
  destruct o1 as [disable| |]; cbn [wp_then]; try (split; [reflexivity|discriminate]).
  destruct (negb _).
  { split; [reflexivity|]. intros _.
    exists [running [devcon_path; "disable"; instance_id];
            EvRun [devcon_path; "disable"; instance_id] None r1].
    eexists. split; [reflexivity|]. left. apply startswith_iff. eexists. reflexivity. }
  apply wp_bind. unfold wp at 1. cbn [sleep res evs fin wp_then].
  apply wp_bind. eapply wp_mono; [apply run_command_spec|].
  intros o2 tr2 w2 [r2 ->].
  destruct o2 as [enable| |]; cbn [wp_then]; try (split; [reflexivity|discriminate]).
  destruct (negb _); (split; [reflexivity|]); [|discriminate].
  intros _.
  exists [running [devcon_path; "disable"; instance_id];
          EvRun [devcon_path; "disable"; instance_id] None r1; EvSleep 2;
          running [devcon_path; "enable"; instance_id];
          EvRun [devcon_path; "enable"; instance_id] None r2].
  eexists. split; [reflexivity|]. right. apply startswith_iff. eexists. reflexivity.
Qed.

Lemma poll_loop_spec (adb_path : string) (serial : option string) (deadline : Q)
  (fuel : nat) (w : W) :
  wp (poll_loop fuel adb_path serial deadline)
     (fun o tr _ => loop_post serial deadline o tr) w.
Proof.
  revert w. induction fuel as [|fuel IH]; intro w; cbn [poll_loop];
    apply wp_bind; unfold wp at 1; unfold time_; destruct (time_time w) as [now w1];
    cbn [res evs fin wp_then]; destruct (Qlt_bool now deadline) eqn:Hnow.
  - unfold wp, loop_post. cbn [out_of_fuel res evs fin]. split; reflexivity.
  - unfold wp, loop_post. cbn [ret res evs fin]. split; [reflexivity|].
    split; [reflexivity|]. exists [], now. split; [reflexivity|].
    apply Qnot_lt_le. rewrite <- Qlt_bool_iff, Hnow. discriminate.
  - apply wp_bind. eapply wp_mono; [apply is_adb_healthy_spec|].
    intros o tr w2 (Hhard & _ & Ho). unfold loop_post.
    destruct o as [[|]| |]; cbn [wp_then].
    + unfold wp. cbn [ret res evs fin]. rewrite app_nil_r.
      split; [assumption|]. now apply (healthy_tail_app serial [EvTime now]).
    + apply wp_bind. unfold wp at 1. cbn [sleep res evs fin wp_then].
      eapply wp_mono; [apply IH|]. cbv beta. intros o' tr' w3 (Hhard' & Ho').
      split; [absent_tac|].
      destruct o' as [[|]| |]; try absent_tac.
      * repeat rewrite app_assoc. apply healthy_tail_app. assumption.
      * destruct Ho' as (Hab & pre & t & -> & Ht). split; [absent_tac|].
        exists ([EvTime now] ++ tr ++ [EvSleep 2] ++ pre)%list, t.
        split; [now rewrite <- !app_assoc|assumption].
    + split; absent_tac.
    + split; absent_tac.
  - unfold wp, loop_post. cbn [ret res evs fin]. split; [reflexivity|].
    split; [reflexivity|]. exists [], now. split; [reflexivity|].
    apply Qnot_lt_le. rewrite <- Qlt_bool_iff, Hnow. discriminate.
Qed.

Lemma poll_until_healthy_spec (adb_path : string) (serial : option string)
  (timeout : Z) (fuel : nat) (w : W) :
  wp (poll_until_healthy fuel adb_path serial timeout)
     (fun o tr _ => poll_post serial timeout o tr) w.
Proof.
  unfold poll_until_healthy. apply wp_bind. unfold wp at 1. unfold time_.
  destruct (time_time w) as [start w1]. cbn [res evs fin wp_then].
  destruct (float_of_int timeout) as [seconds|] eqn:Hsec; [|split; reflexivity].
  apply float_of_int_some in Hsec. subst seconds.
  eapply wp_mono; [apply poll_loop_spec|]. cbv beta.
  intros o tr w2 (Hhard & Ho). unfold poll_post. split; [absent_tac|].
  destruct o as [[|]| |]; try absent_tac.
  - now apply (healthy_tail_app serial [EvTime start]).
  - destruct Ho as (Hab & pre & t & -> & Ht). split; [absent_tac|].
    exists start, pre, t. repeat split; try assumption.
    apply absent_app in Hab. apply Hab.
Qed.


(* ================================================================ *)
(** ** Walking through [main] *)
(* ================================================================ *)

Lemma wp_emit {B} (e : event) (k : unit -> M W B) Q w :
  wp (k tt) (fun o tr w1 => Q o ([e] ++ tr)%list w1) w -> wp (bind (emit e) k) Q w.
Proof. intro H. apply wp_bind. exact H. Qed.

Lemma wp_gets {A B} (f : W -> A) (k : A -> M W B) Q w :
  wp (k (f w)) Q w -> wp (bind (gets f) k) Q w.
Proof. intro H. apply wp_bind. exact H. Qed.

Lemma wp_ret {A} (a : A) (Q : outcome A -> list event -> W -> Prop) w :
  Q (Ret a) [] w -> wp (ret a) Q w.
Proof. intro H. exact H. Qed.

(** One step through a host primitive at the head of the program. *)
Ltac wp_prim :=
  lazymatch goal with
  | |- wp (bind (configure_logging _) _) _ _ => unfold configure_logging; apply wp_emit
  | |- wp (bind (logging _ _) _) _ _ => unfold logging at 1; apply wp_emit
  | |- wp (bind is_windows_admin _) _ _ => unfold is_windows_admin; apply wp_gets
  | |- wp (bind (resolve_executable _) _) _ _ =>
      unfold resolve_executable at 1; apply wp_gets
  | |- wp (ret _) _ _ => apply wp_ret
  end.

(** One step through a component, by its specification. *)
Ltac wp_call spec :=
  apply wp_bind; eapply wp_mono; [apply spec|]; cbv beta.

(** C2. [main] returns 0 only when the last thing it did was a device
    listing that came back healthy: the trace ends with that listing and
    the line that reports it. *)
Theorem success_only_after_fresh_healthy_probe
  (fuel : nat) (args : Namespace) (w : W) :
  res (main fuel args w) = Ret 0%Z ->
  healthy_tail (ns_serial args) (evs (main fuel args w)).
Proof.
  change (wp (main fuel args)
            (fun o tr _ => o = Ret 0%Z -> healthy_tail (ns_serial args) tr) w).
  unfold main. do 2 wp_prim.
  destruct (negb (windows_admin w)); [do 2 wp_prim; discriminate|].
  do 2 wp_prim.
  destruct (resolved (executable (ns_adb_path args) w)) as [adb_path|];
    [|do 2 wp_prim; discriminate].
  destruct (resolved (executable (ns_devcon_path args) w)) as [devcon_path|];
    [|do 2 wp_prim; discriminate].
  wp_call is_adb_healthy_spec. intros o0 tr0 w0 (_ & _ & H0).
  destruct o0 as [[|]| |]; cbn [wp_then]; try discriminate.
  { wp_prim. intros _. rewrite app_nil_r. now apply healthy_tail_app. }
  wp_prim. wp_call soft_reset_spec. intros o1 tr1 w1 _.
  destruct o1 as [[]| |]; cbn [wp_then]; try discriminate.
  wp_call poll_until_healthy_spec. intros o2 tr2 w2 (_ & H2).
  destruct o2 as [[|]| |]; cbn [wp_then]; try discriminate.
  { wp_prim. intros _. rewrite app_nil_r. repeat rewrite app_assoc.
    now apply healthy_tail_app. }
  wp_prim. wp_call find_devcon_device_spec. intros o3 tr3 w3 _.
  destruct o3 as [found| |]; cbn [wp_then]; try discriminate.
  destruct (resolved found) as [instance_id|]; [|do 2 wp_prim; discriminate].
  wp_call hard_reset_spec. intros o4 tr4 w4 _.
  destruct o4 as [[|]| |]; cbn [wp_then negb]; try discriminate.
  wp_call soft_reset_spec. intros o5 tr5 w5 _.
  destruct o5 as [[]| |]; cbn [wp_then]; try discriminate.
  wp_call poll_until_healthy_spec. intros o6 tr6 w6 (_ & H6).
  destruct o6 as [[|]| |]; cbn [wp_then]; try discriminate.
  wp_prim. intros _. rewrite app_nil_r. repeat rewrite app_assoc.
  now apply healthy_tail_app.
Qed.

Lemma wp_any {A} (m : M W A) (Q : outcome A -> list event -> W -> Prop) w :
  (forall o tr w', Q o tr w') -> wp m Q w.
Proof. intro H. apply H. Qed.

Lemma first_occurrence_after (P : event -> bool) (x rest pre post : list event) (h : event) :
  absent P x -> P h = true -> (x ++ rest = pre ++ h :: post)%list ->
  exists rest1, pre = (x ++ rest1)%list.
Proof.
  revert pre. induction x as [|e x IH]; intros pre Hx Hh Heq.
  - now exists pre.
  - apply absent_cons in Hx. destruct Hx as [He Hx].
    destruct pre as [|p pre]; simpl in Heq; injection Heq as Hhead Htail.
    + subst e. congruence.
    + subst p. destruct (IH pre Hx Hh Htail) as [rest1 ->]. now exists rest1.
Qed.

Lemma no_hard_reset_ok (serial : option string) (timeout : Z) (tr : list event) :
  absent is_hard_reset_start tr ->
  hard_reset_only_after_exhausted_poll serial timeout tr.
Proof.
  intros Habs pre h post -> Hh. apply absent_app in Habs. destruct Habs as [_ Habs].
  apply absent_cons in Habs. destruct Habs as [Hh' _]. congruence.
Qed.

Lemma hard_reset_after_phases_ok (serial : option string) (timeout : Z)
  (before soft poll between rest full : list event) :
  full = ((before ++ soft ++ poll ++ between) ++ rest)%list ->
  absent is_hard_reset_start (before ++ soft ++ poll ++ between) ->
  soft_reset_performed soft ->
  poll_exhausted serial timeout poll ->
  hard_reset_only_after_exhausted_poll serial timeout full.
Proof.
  intros -> Habs Hsoft Hpoll pre h post Heq Hh.
  destruct (first_occurrence_after _ _ _ _ _ _ Habs Hh Heq) as [rest1 ->].
  exists before, soft, poll, (between ++ rest1)%list.
  split; [now rewrite <- !app_assoc|]. split; assumption.
Qed.

(** C3. In every run of [main], whatever starts a hard reset (the
    disable command, or its announcement in dry-run mode) comes after
    the three soft-reset commands and, right after them, a polling phase
    that ended on a clock reading at or past its deadline without a
    healthy listing. *)
Theorem hard_reset_only_after_soft_reset_and_exhausted_poll
  (fuel : nat) (args : Namespace) (w : W) :
  hard_reset_only_after_exhausted_poll (ns_serial args) (ns_timeout args)
    (evs (main fuel args w)).
Proof.
  change (wp (main fuel args)
            (fun _ tr _ =>
               hard_reset_only_after_exhausted_poll (ns_serial args) (ns_timeout args) tr)
            w).
  unfold main. do 2 wp_prim.
  destruct (negb (windows_admin w));
    [do 2 wp_prim; apply no_hard_reset_ok; absent_tac|].
  do 2 wp_prim.
  destruct (resolved (executable (ns_adb_path args) w)) as [adb_path|];
    [|do 2 wp_prim; apply no_hard_reset_ok; absent_tac].
  destruct (resolved (executable (ns_devcon_path args) w)) as [devcon_path|];
    [|do 2 wp_prim; apply no_hard_reset_ok; absent_tac].
  wp_call is_adb_healthy_spec. intros o0 tr0 w0 (Hh0 & _ & _).
  destruct o0 as [[|]| |]; cbn [wp_then];
    try (try wp_prim; apply no_hard_reset_ok; absent_tac).
  wp_prim. wp_call soft_reset_spec. intros o1 tr1 w1 (Hh1 & _ & Hsoft).
  destruct o1 as [[]| |]; cbn [wp_then];
    try (apply no_hard_reset_ok; absent_tac).
  wp_call poll_until_healthy_spec. intros o2 tr2 w2 (Hh2 & Hpoll).
  destruct o2 as [[|]| |]; cbn [wp_then];
    try (try wp_prim; apply no_hard_reset_ok; absent_tac).
  destruct Hpoll as [_ Hpoll].
  wp_prim. wp_call find_devcon_device_spec. intros o3 tr3 w3 (Hh3 & _).
  destruct o3 as [found| |]; cbn [wp_then];
    try (apply no_hard_reset_ok; absent_tac).
  destruct (resolved found) as [instance_id|];
    [|do 2 wp_prim; apply no_hard_reset_ok; absent_tac].
  apply wp_any. intros o tr w'.
  apply (hard_reset_after_phases_ok (ns_serial args) (ns_timeout args)
           ([EvBasicConfig (if ns_verbose args then DEBUG else INFO)] ++ tr0
            ++ [EvLog INFO "Attempting soft reset of ADB server."])
           tr1 tr2
           ([EvLog WARNING "Soft reset did not recover device; attempting hard reset."]
            ++ tr3) tr).
  - repeat rewrite <- app_assoc. reflexivity.
  - absent_tac.
  - now apply Hsoft.
  - exact Hpoll.
Qed.

(** A timeout too large for a float: the sum after the first clock
    reading raises. *)
Lemma poll_overflow_run (fuel : nat) (adb_path : string) (serial : option string)
  (timeout : Z) (w : W) :
  (float_int_limit <= Z.abs timeout)%Z ->
  poll_until_healthy fuel adb_path serial timeout w =
  mk_run (Raise OverflowError) [EvTime (fst (time_time w))] (snd (time_time w)).
Proof.
  intro Hrange. unfold poll_until_healthy.
  rewrite (float_of_int_out_of_range _ Hrange). unfold bind, time_, raise.
  destruct (time_time w) as [t0 w1]. reflexivity.
Qed.

(** With a timeout that is not positive, the deadline is already reached
    at the first test of the loop. *)
Lemma poll_nonpositive_run (fuel : nat) (adb_path : string) (serial : option string)
  (timeout : Z) (w : W) :
  (timeout <= 0)%Z ->
  (- float_int_limit < timeout)%Z ->
  (fst (time_time w) <= fst (time_time (snd (time_time w))))%Q ->
  poll_until_healthy fuel adb_path serial timeout w =
  mk_run (Ret false)
    [EvTime (fst (time_time w)); EvTime (fst (time_time (snd (time_time w))))]
    (snd (time_time (snd (time_time w)))).
Proof.
  intros Htimeout Hrange Hclock.
  unfold poll_until_healthy. rewrite float_of_int_in_range by lia.
  unfold bind, time_.
  destruct (time_time w) as [t0 w1]. cbn [res evs fin fst snd] in *.
  assert (Hloop : forall k : Q -> M W bool,
             bind time_ k w1 =
             let r := k (fst (time_time w1)) (snd (time_time w1)) in
             mk_run (res r) ([EvTime (fst (time_time w1))] ++ evs r) (fin r)).
  { intro k. unfold bind, time_. destruct (time_time w1) as [t1 w2]. reflexivity. }
  assert (Hpast : Qlt_bool (fst (time_time w1)) (t0 + inject_Z timeout) = false).
  { apply not_true_iff_false. rewrite Qlt_bool_iff.
    rewrite Zle_Qle in Htimeout. change (inject_Z 0) with 0%Q in Htimeout. lra. }
  destruct fuel; cbn [poll_loop]; rewrite Hloop; cbv zeta; rewrite Hpast; reflexivity.
Qed.

Lemma poll_nonpositive_spec (fuel : nat) (adb_path : string) (serial : option string)
  (timeout : Z) (w : W) :
  clock_never_steps_back -> (timeout <= 0)%Z ->
  wp (poll_until_healthy fuel adb_path serial timeout)
     (fun o tr _ => issued "devices" tr = 0%nat) w.
Proof.
  intros Hclock Htimeout. unfold wp.
  destruct (Z_lt_le_dec (- float_int_limit) timeout) as [Hrange|Hrange].
  - rewrite (poll_nonpositive_run fuel adb_path serial timeout w Htimeout Hrange
               (Hclock w)).
    reflexivity.
  - rewrite (poll_overflow_run fuel adb_path serial timeout w) by lia. reflexivity.
Qed.

Ltac issued_tac :=
  repeat rewrite issued_app;
  repeat match goal with H : issued _ _ = _ |- _ => rewrite H end;
  cbn; lia.

(** C10 (amended). With a timeout that is zero or negative, on a host
    whose clock does not read lower than at the reading before:
    when the timeout converts to a float, [poll_until_healthy] reads the
    clock twice and returns [False], starting no child process and not
    sleeping; when it does not (at or below minus [float_int_limit]),
    [poll_until_healthy] raises [OverflowError] after one clock reading,
    again with no child process and no sleep.  Either way a run of
    [main] lists the devices at most once, at its first probe. *)
Theorem nonpositive_timeout_polls_without_probing
  (fuel : nat) (args : Namespace) (w : W) :
  clock_never_steps_back ->
  (ns_timeout args <= 0)%Z ->
  ((- float_int_limit < ns_timeout args)%Z ->
   forall adb_path serial w1,
      let r := poll_until_healthy fuel adb_path serial (ns_timeout args) w1 in
      res r = Ret false /\ commands (evs r) = [] /\ absent is_sleep (evs r) /\
      List.length (evs r) = 2%nat) /\
  ((ns_timeout args <= - float_int_limit)%Z ->
   forall adb_path serial w1,
      let r := poll_until_healthy fuel adb_path serial (ns_timeout args) w1 in
      res r = Raise OverflowError /\ commands (evs r) = [] /\
      absent is_sleep (evs r) /\ List.length (evs r) = 1%nat) /\
  (issued "devices" (evs (main fuel args w)) <= 1)%nat.
Proof.
  intros Hclock Htimeout. split; [|split].
  { intros Hrange adb_path serial w1. cbv zeta.
    rewrite (poll_nonpositive_run fuel adb_path serial _ w1 Htimeout Hrange (Hclock w1)).
    repeat split. }
  { intros Hrange adb_path serial w1. cbv zeta.
    rewrite (poll_overflow_run fuel adb_path serial _ w1) by lia.
    repeat split. }
  change (wp (main fuel args) (fun _ tr _ => (issued "devices" tr <= 1)%nat) w).
  unfold main. do 2 wp_prim.
  destruct (negb (windows_admin w)); [do 2 wp_prim; issued_tac|].
  do 2 wp_prim.
  destruct (resolved (executable (ns_adb_path args) w)) as [adb_path|];
    [|do 2 wp_prim; issued_tac].
  destruct (resolved (executable (ns_devcon_path args) w)) as [devcon_path|];
    [|do 2 wp_prim; issued_tac].
  wp_call is_adb_healthy_spec. intros o0 tr0 w0 (_ & H0 & _).
  destruct o0 as [[|]| |]; cbn [wp_then]; try (try wp_prim; issued_tac).
  wp_prim. wp_call soft_reset_spec. intros o1 tr1 w1 (_ & H1 & _).
  destruct o1 as [[]| |]; cbn [wp_then]; try issued_tac.
  wp_call poll_nonpositive_spec; [assumption..|]. intros o2 tr2 w2 H2.
  destruct o2 as [[|]| |]; cbn [wp_then]; try (try wp_prim; issued_tac).
  wp_prim. wp_call find_devcon_device_spec. intros o3 tr3 w3 (_ & H3).
  destruct o3 as [found| |]; cbn [wp_then]; try issued_tac.
  destruct (resolved found) as [instance_id|]; [|do 2 wp_prim; issued_tac].
  wp_call hard_reset_spec. intros o4 tr4 w4 (H4 & _).
  destruct o4 as [[|]| |]; cbn [wp_then negb]; try (try wp_prim; issued_tac).
  wp_call soft_reset_spec. intros o5 tr5 w5 (_ & H5 & _).
  destruct o5 as [[]| |]; cbn [wp_then]; try issued_tac.
  wp_call poll_nonpositive_spec; [assumption..|]. intros o6 tr6 w6 H6.
  destruct o6 as [[|]| |]; cbn [wp_then]; try (try wp_prim; issued_tac).
  do 2 wp_prim. issued_tac.
Qed.

Lemma soft_reset_performed_issued (tr : list event) :
  soft_reset_performed tr -> issued "kill-server" tr = 1%nat.
Proof.
  unfold soft_reset_performed, issued. intro Hverbs.
  assert (Hmap : forall cs,
             List.length (List.filter (fun c => String.eqb (verb c) "kill-server") cs) =
             List.length (List.filter (fun v => String.eqb v "kill-server")
                            (List.map verb cs))).
  { induction cs as [|c cs IH]; [reflexivity|]. simpl.
    destruct (String.eqb (verb c) "kill-server"); simpl; now rewrite IH. }
  rewrite Hmap, Hverbs. reflexivity.
Qed.

Lemma recovery_failed_app (a b : list event) :
  recovery_failed b -> recovery_failed (a ++ b).
Proof.
  intros (f & pre & msg & -> & Hline).
  exists f, (a ++ pre)%list, msg. split; [now rewrite app_assoc|assumption].
Qed.

Lemma recovery_failed_line (f : failure) (msg : string) :
  failure_line f msg -> recovery_failed [EvLog ERROR msg].
Proof. intro Hline. now exists f, [], msg. Qed.

Lemma healthy_tail_observed (serial : option string) (tr : list event) :
  healthy_tail serial tr -> healthy_observed serial tr.
Proof.
  intros (pre & e & -> & He). unfold healthy_observed.
  rewrite existsb_app. simpl. rewrite He. apply orb_true_r.
Qed.

(** Every exit code of [main] with what it says about the run. *)
Lemma main_classified (fuel : nat) (args : Namespace) (w : W) :
  wp (main fuel args)
     (fun o tr _ =>
        classified (windows_admin w) (tools_found args w) (ns_serial args) o tr) w.
Proof.
  unfold main, tools_found. do 2 wp_prim.
  destruct (windows_admin w); cbn [negb]; [|do 2 wp_prim; left; now split].
  do 2 wp_prim.
  destruct (resolved (executable (ns_adb_path args) w)) as [adb_path|];
    [|do 2 wp_prim; right; left; repeat split].
  destruct (resolved (executable (ns_devcon_path args) w)) as [devcon_path|];
    [|do 2 wp_prim; right; left; repeat split].
  wp_call is_adb_healthy_spec. intros o0 tr0 w0 (_ & _ & H0).
  destruct o0 as [[|]| |]; cbn [wp_then]; try exact I.
  { wp_prim. do 2 right. left. repeat split. rewrite app_nil_r.
    now apply healthy_tail_app. }
  wp_prim. wp_call soft_reset_spec. intros o1 tr1 w1 (_ & H1 & Hsoft).
  destruct o1 as [[]| |]; cbn [wp_then]; try exact I.
  apply (no_listing_no_healthy_probe (ns_serial args)) in H1.
  specialize (Hsoft eq_refl). apply soft_reset_performed_issued in Hsoft.
  wp_call poll_until_healthy_spec. intros o2 tr2 w2 (_ & H2).
  destruct o2 as [[|]| |]; cbn [wp_then]; try exact I.
  { wp_prim. do 2 right. left. repeat split. rewrite app_nil_r.
    repeat rewrite app_assoc. now apply healthy_tail_app. }
  destruct H2 as [H2 _].
  wp_prim. wp_call find_devcon_device_spec. intros o3 tr3 w3 (_ & H3).
  destruct o3 as [found| |]; cbn [wp_then]; try exact I.
  apply (no_listing_no_healthy_probe (ns_serial args)) in H3.
  destruct (resolved found) as [instance_id|].
  2:{ do 2 wp_prim. do 3 right. repeat split.
      - absent_tac.
      - issued_tac.
      - rewrite app_nil_r. repeat rewrite app_assoc. apply recovery_failed_app.
        now apply (recovery_failed_line DeviceNotFound). }
  wp_call hard_reset_spec. intros o4 tr4 w4 (H4 & Hfail).
  apply (no_listing_no_healthy_probe (ns_serial args)) in H4.
  destruct o4 as [[|]| |]; cbn [wp_then negb]; try exact I.
  2:{ wp_prim. do 3 right. repeat split.
      - absent_tac.
      - issued_tac.
      - rewrite app_nil_r. repeat rewrite app_assoc. apply recovery_failed_app.
        destruct (Hfail eq_refl) as (pre & msg & -> & Hline).
        now exists HardResetFailed, pre, msg. }
  wp_call soft_reset_spec. intros o5 tr5 w5 (_ & H5 & _).
  destruct o5 as [[]| |]; cbn [wp_then]; try exact I.
  apply (no_listing_no_healthy_probe (ns_serial args)) in H5.
  wp_call poll_until_healthy_spec. intros o6 tr6 w6 (_ & H6).
  destruct o6 as [[|]| |]; cbn [wp_then]; try exact I.
  { wp_prim. do 2 right. left. repeat split. rewrite app_nil_r.
    repeat rewrite app_assoc. now apply healthy_tail_app. }
  destruct H6 as [H6 _].
  do 2 wp_prim. do 3 right. repeat split.
  - absent_tac.
  - issued_tac.
  - rewrite app_nil_r. repeat rewrite app_assoc. apply recovery_failed_app.
    now apply (recovery_failed_line TimedOutWaiting).
Qed.

(* ================================================================ *)
(** ** Termination on a host that behaves *)
(* ================================================================ *)

Section Returns.

Variable clock : W -> Q.
Hypothesis Hexit : children_always_exit.
Hypothesis Hclock : host_progress clock.

Lemma run_command_returns (command : list string) (timeout : option Z) (w : W) :
  wp (run_command command timeout)
     (fun o _ w' => returns o /\ (clock w <= clock w')%Q) w.
Proof.
  unfold wp. rewrite run_command_run.
  destruct (Hexit command timeout w) as [cp Hcp].
  pose proof (run_forward Hclock command timeout w) as Hfwd.
  destruct (subprocess_run command timeout w) as [r w']. cbn [fst snd] in *. subst r.
  split; [now exists cp|assumption].
Qed.

Lemma is_adb_healthy_returns (adb_path : string) (serial : option string) (w : W) :
  wp (is_adb_healthy adb_path serial)
     (fun o _ w' => returns o /\ (clock w <= clock w')%Q) w.
Proof.
  unfold wp. rewrite is_adb_healthy_run. cbv zeta.
  destruct (Hexit [adb_path; "devices"] None w) as [cp Hcp].
  pose proof (run_forward Hclock [adb_path; "devices"] None w) as Hfwd.
  destruct (subprocess_run [adb_path; "devices"] None w) as [r w'].
  cbn [fst snd] in *. subst r. split; [eexists; reflexivity|assumption].
Qed.

Lemma soft_reset_step_returns (adb_path : string) (args : list string) (w : W) :
  wp (soft_reset_step adb_path args) (fun o _ _ => returns o) w.
Proof.
  unfold wp. rewrite soft_reset_step_run. cbv zeta.
  destruct (Hexit (adb_path :: args) None w) as [cp Hcp].
  destruct (subprocess_run (adb_path :: args) None w) as [r w'].
  cbn [fst] in Hcp. subst r. eexists; reflexivity.
Qed.

Ltac returned H := destruct H as [? [=]].

Lemma soft_reset_returns (adb_path : string) (w : W) :
  wp (soft_reset adb_path) (fun o _ _ => returns o) w.
Proof.
  unfold soft_reset, ADB_SOFT_RESET_COMMANDS. cbn [for_each].
  do 3 (wp_call soft_reset_step_returns; intros [[]| |] ? ? Hret;
        cbn [wp_then]; try returned Hret).
  now exists tt.
Qed.

Lemma find_devcon_device_returns (devcon_path : string) (w : W) :
  wp (find_devcon_device devcon_path) (fun o _ _ => returns o) w.
Proof.
  unfold wp. rewrite find_devcon_device_run. cbv zeta.
  destruct (Hexit (findall_command devcon_path) None w) as [cp1 Hcp1].
  destruct (subprocess_run (findall_command devcon_path) None w) as [r1 w1].
  cbn [fst] in Hcp1. subst r1.
  destruct (name_stage cp1) as [[instance_id name]|]; [eexists; reflexivity|].
  destruct (Hexit (hwids_command devcon_path) None w1) as [cp2 Hcp2].
  destruct (subprocess_run (hwids_command devcon_path) None w1) as [r2 w2].
  cbn [fst] in Hcp2. subst r2. eexists; reflexivity.
Qed.

Lemma hard_reset_returns (devcon_path instance_id : string) (dry_run : bool) (w : W) :
  wp (hard_reset devcon_path instance_id dry_run) (fun o _ _ => returns o) w.
Proof.
  unfold hard_reset. destruct dry_run; [now exists true|].
  wp_call run_command_returns. intros [disable| |] ? w1 [Hret _];
    cbn [wp_then]; try returned Hret.
  destruct (negb _); [now exists false|].
  apply wp_bind. unfold wp at 1. cbn [sleep res evs fin wp_then].
  wp_call run_command_returns. intros [enable| |] ? w2 [Hret2 _];
    cbn [wp_then]; try returned Hret2.
  destruct (negb _); eexists; reflexivity.
Qed.

Lemma poll_loop_returns (adb_path : string) (serial : option string) (deadline : Q)
  (fuel : nat) (w : W) :
  (deadline - clock w <= 2 * inject_Z (Z.of_nat fuel))%Q ->
  wp (poll_loop fuel adb_path serial deadline) (fun o _ _ => returns o) w.
Proof.
  revert w. induction fuel as [|fuel IH]; intros w Hleft; cbn [poll_loop];
    apply wp_bind; unfold wp at 1; unfold time_;
    pose proof (read_after Hclock w) as Hafter;
    pose proof (read_before Hclock w) as Hbefore;
    destruct (time_time w) as [now w1]; cbn [fst snd] in *;
    cbn [res evs fin wp_then]; destruct (Qlt_bool now deadline) eqn:Hnow;
    try (now exists false).
  - apply Qlt_bool_iff in Hnow. change (inject_Z (Z.of_nat 0)) with 0%Q in Hleft. lra.
  - apply Qlt_bool_iff in Hnow.
    wp_call is_adb_healthy_returns. intros [[|]| |] ? w2 [Hret Hfwd];
      cbn [wp_then]; try returned Hret; [now exists true|].
    apply wp_bind. unfold wp at 1. cbn [sleep res evs fin wp_then].
    eapply wp_mono; [apply IH|auto].
    pose proof (sleep_forward Hclock 2 w2) as Hsleep.
    rewrite Nat2Z.inj_succ in Hleft. unfold Z.succ in Hleft.
    rewrite inject_Z_plus in Hleft.
    change (inject_Z 2) with 2%Q in Hsleep. change (inject_Z 1) with 1%Q in Hleft.
    lra.
Qed.

Lemma poll_until_healthy_returns (adb_path : string) (serial : option string)
  (timeout : Z) (fuel : nat) (w : W) :
  (timeout <= 2 * Z.of_nat fuel)%Z ->
  (Z.abs timeout < float_int_limit)%Z ->
  wp (poll_until_healthy fuel adb_path serial timeout) (fun o _ _ => returns o) w.
Proof.
  intros Hfuel Hrange. unfold poll_until_healthy.
  rewrite (float_of_int_in_range _ Hrange).
  apply wp_bind. unfold wp at 1. unfold time_.
  pose proof (read_before Hclock w) as Hbefore.
  destruct (time_time w) as [start w1]. cbn [fst snd] in *.
  cbn [res evs fin wp_then].
  eapply wp_mono; [apply poll_loop_returns|auto].
  rewrite Zle_Qle, inject_Z_mult in Hfuel. change (inject_Z 2) with 2%Q in Hfuel. lra.
Qed.

(** On such a host, with a timeout that converts to a float and fuel
    for half of it, [main] returns an exit code. *)
Lemma main_returns (fuel : nat) (args : Namespace) (w : W) :
  (ns_timeout args <= 2 * Z.of_nat fuel)%Z ->
  (Z.abs (ns_timeout args) < float_int_limit)%Z ->
  returns (res (main fuel args w)).
Proof.
  intros Hfuel Hrange.
  change (wp (main fuel args) (fun o _ _ => returns o) w).
  unfold main. do 2 wp_prim.
  destruct (negb (windows_admin w)); [do 2 wp_prim; now eexists|].
  do 2 wp_prim.
  destruct (resolved (executable (ns_adb_path args) w)) as [adb_path|];
    [|do 2 wp_prim; now eexists].
  destruct (resolved (executable (ns_devcon_path args) w)) as [devcon_path|];
    [|do 2 wp_prim; now eexists].
  wp_call is_adb_healthy_returns. intros [[|]| |] ? ? [Hret _];
    cbn [wp_then]; try returned Hret; [now eexists|].
  wp_prim. wp_call soft_reset_returns. intros [[]| |] ? ? Hret1;
    cbn [wp_then]; try returned Hret1.
  wp_call poll_until_healthy_returns; [assumption..|]. intros [[|]| |] ? ? Hret2;
    cbn [wp_then]; try returned Hret2; [now eexists|].
  wp_prim. wp_call find_devcon_device_returns. intros [found| |] ? ? Hret3;
    cbn [wp_then]; try returned Hret3.
  destruct (resolved found) as [instance_id|]; [|do 2 wp_prim; now eexists].
  wp_call hard_reset_returns. intros [[|]| |] ? ? Hret4;
    cbn [wp_then negb]; try returned Hret4; [|now eexists].
  wp_call soft_reset_returns. intros [[]| |] ? ? Hret5;
    cbn [wp_then]; try returned Hret5.
  wp_call poll_until_healthy_returns; [assumption..|]. intros [[|]| |] ? ? Hret6;
    cbn [wp_then]; try returned Hret6; [now eexists|].
  do 2 wp_prim. now eexists.
Qed.

End Returns.

(** C4 (amended). For every run of [main] that returns a code: the code
    is 3 exactly when the privilege check fails; 2 exactly when the
    privilege check passes and a tool is not resolved; 0 exactly when
    both pass and a device listing came back healthy; 1 exactly when
    both pass and no listing came back healthy, and then a soft reset
    was attempted and the run ends on the error line of one of the three
    failures (device not found, hard reset failed, timed out).  [main]
    returns a code when every call of [subprocess.run] returns a result,
    the host has a clock that the program reads, that no child and no
    reading sets back and that every sleep advances by the time slept,
    and the timeout converts to a float. *)
Theorem exit_code_classification (fuel : nat) (args : Namespace) (w : W) :
  (forall code, res (main fuel args w) = Ret code ->
     let tr := evs (main fuel args w) in
     (code = 3%Z <-> windows_admin w = false) /\
     (code = 2%Z <-> windows_admin w = true /\ tools_found args w = false) /\
     (code = 0%Z <->
        windows_admin w = true /\ tools_found args w = true /\
        healthy_observed (ns_serial args) tr) /\
     (code = 1%Z <->
        windows_admin w = true /\ tools_found args w = true /\
        ~ healthy_observed (ns_serial args) tr) /\
     (code = 1%Z -> (1 <= issued "kill-server" tr)%nat /\ recovery_failed tr)) /\
  (forall clock, children_always_exit -> host_progress clock ->
     (Z.abs (ns_timeout args) < float_int_limit)%Z ->
     (ns_timeout args <= 2 * Z.of_nat fuel)%Z ->
     returns (res (main fuel args w))).
Proof.
  split.
  - intros code Hcode. cbv zeta.
    pose proof (main_classified fuel args w) as Hclass. unfold wp in Hclass.
    rewrite Hcode in Hclass. unfold classified in Hclass.
    unfold healthy_observed.
    destruct Hclass as [[-> Ha]|[(-> & Ha & Ht)|[(-> & Ha & Ht & Hh)|
                        (-> & Ha & Ht & Hh & Hsoft & Hfail)]]];
      rewrite Ha; try rewrite Ht;
      try (apply healthy_tail_observed in Hh; unfold healthy_observed in Hh);
      try (unfold absent in Hh); try rewrite Hh;
      repeat split; intros; try discriminate; try assumption;
      repeat match goal with H : _ /\ _ |- _ => destruct H end;
      try discriminate; try congruence.
  - intros clock Hexit Hclock Hrange Hfuel. now apply (main_returns clock).
Qed.

(* ================================================================ *)
(** ** The components, one claim each *)
(* ================================================================ *)

(** C1. For every listing that [adb devices] prints with exit code 0 and
    every serial filter, the record the probe reads is the first record
    line of the listing that is no header, has at least two tokens and
    whose first token the filter lets through.  The probe answers
    healthy exactly when the state token of that record is "device":
    [True] for that token, [False] for every other token (none is
    empty), and [False] when the listing has no such record. *)
Theorem probe_healthy_iff_device_token
  (adb_path : string) (serial : option string) (w w' : W) (cp : CompletedProcess) :
  subprocess_run [adb_path; "devices"] None w = (Exited cp, w') ->
  returncode cp = 0%Z ->
  let r := is_adb_healthy adb_path serial w in
  (forall state, selected_state serial (stdout cp) state ->
     state <> "" /\
     (state = "device" -> res r = Ret true) /\
     (state <> "device" -> res r = Ret false)) /\
  ((forall state, ~ selected_state serial (stdout cp) state) -> res r = Ret false) /\
  (res r = Ret true -> selected_state serial (stdout cp) "device").
Proof.
  intros Hrun Hrc. cbv zeta. rewrite is_adb_healthy_run. cbv zeta. rewrite Hrun.
  cbn [res]. unfold reports_healthy. rewrite Hrc. cbn [Z.eqb andb].
  split; [|split].
  - intros state Hsel. apply parse_adb_devices_selects in Hsel. rewrite Hsel.
    split; [|split].
    + intros ->. apply parse_adb_devices_truthy in Hsel. discriminate.
    + intros ->. reflexivity.
    + intro Hne. apply String.eqb_neq in Hne. unfold ADB_HEALTHY_STATE. now rewrite Hne.
  - intro Hnone. destruct (parse_adb_devices (stdout cp) serial) as [state|] eqn:Hp;
      [|reflexivity].
    apply parse_adb_devices_selects in Hp. now elim (Hnone state).
  - destruct (parse_adb_devices (stdout cp) serial) as [state|] eqn:Hp; [|discriminate].
    destruct (String.eqb_spec state ADB_HEALTHY_STATE) as [->|]; [|discriminate].
    intros _. now apply parse_adb_devices_selects.
Qed.

(** C5. When the findall enumeration succeeds and [(instance_id, name)]
    is its first entry whose display name contains the device-class name
    as a case-insensitive substring, [find_devcon_device] returns
    [instance_id] from stage one; the hardware-ID listing is never asked
    for, so no entry with an allowlisted vendor ID can take precedence. *)
Theorem locator_prefers_name_match
  (devcon_path : string) (w w1 : W) (cp : CompletedProcess)
  (before after : list (string * string)) (instance_id name : string) :
  subprocess_run (findall_command devcon_path) None w = (Exited cp, w1) ->
  returncode cp = 0%Z ->
  parse_devcon_findall (stdout cp) = (before ++ (instance_id, name) :: after)%list ->
  (forall e, In e before ->
     ~ exists pre post, PyStr.lower (snd e) = pre ++ PyStr.lower ANDROID_DEVICE_NAME ++ post) ->
  (exists pre post, PyStr.lower name = pre ++ PyStr.lower ANDROID_DEVICE_NAME ++ post) ->
  let r := find_devcon_device devcon_path w in
  res r = Ret (Some instance_id) /\
  commands (evs r) = [findall_command devcon_path] /\
  issued "hwids" (evs r) = 0%nat.
Proof.
  intros Hrun Hrc Hparse Hbefore Hname.
  assert (Hstage : name_stage cp = Some (instance_id, name)).
  { unfold name_stage. rewrite Hrc, Hparse. cbn [Z.eqb].
    apply first_name_match_app.
    - intros e He. apply not_true_iff_false. unfold name_matches.
      rewrite contains_iff. now apply Hbefore.
    - unfold name_matches. now rewrite contains_iff. }
  cbv zeta. rewrite find_devcon_device_run. cbv zeta. rewrite Hrun, Hstage.
  repeat split; reflexivity.
Qed.


(** C6. Outside dry-run mode, when the disable command exits non-zero,
    [hard_reset] returns [False] at once: the disable command is the only
    command issued, no enable command is issued and there is no settle
    delay. *)
Theorem hard_reset_disable_failure_skips_enable
  (devcon_path instance_id : string) (w w' : W) (cp : CompletedProcess) :
  subprocess_run [devcon_path; "disable"; instance_id] None w = (Exited cp, w') ->
  returncode cp <> 0%Z ->
  let r := hard_reset devcon_path instance_id false w in
  res r = Ret false /\
  commands (evs r) = [[devcon_path; "disable"; instance_id]] /\
  issued "enable" (evs r) = 0%nat /\
  existsb is_sleep (evs r) = false /\
  fin r = w'.
Proof.
  intros Hrun Hrc. apply Z.eqb_neq in Hrc.
  unfold hard_reset.
  rewrite (bind_ret_run _ (run_command_exited Hrun)).
  rewrite Hrc. cbn. repeat split; reflexivity.
Qed.

(** C7. Whatever the three child processes exit with, [soft_reset] issues
    exactly the three commands kill-server, start-server, reconnect, in
    that order, and returns normally. *)
Theorem soft_reset_issues_all_three
  (adb_path : string) (w0 w1 w2 w3 : W) (cp1 cp2 cp3 : CompletedProcess) :
  subprocess_run [adb_path; "kill-server"] None w0 = (Exited cp1, w1) ->
  subprocess_run [adb_path; "start-server"] None w1 = (Exited cp2, w2) ->
  subprocess_run [adb_path; "reconnect"] None w2 = (Exited cp3, w3) ->
  let r := soft_reset adb_path w0 in
  res r = Ret tt /\
  commands (evs r) =
    [[adb_path; "kill-server"]; [adb_path; "start-server"]; [adb_path; "reconnect"]] /\
  fin r = w3.
Proof.
  intros H1 H2 H3.
  unfold soft_reset, ADB_SOFT_RESET_COMMANDS, for_each.
  rewrite (bind_ret_run _ (soft_reset_step_exited H1)).
  rewrite (bind_ret_run _ (soft_reset_step_exited H2)).
  rewrite (bind_ret_run _ (soft_reset_step_exited H3)).
  cbn [ret res evs fin]. rewrite !commands_app. unfold soft_reset_log.
  destruct (returncode cp1 =? 0)%Z, (returncode cp2 =? 0)%Z, (returncode cp3 =? 0)%Z;
    repeat split; reflexivity.
Qed.


(** The two other behaviours of the runner: a timeout becomes a
    [CommandError], an exit of any code is returned. *)
Lemma run_command_timeout (command : list string) (timeout : option Z) (w w' : W) :
  subprocess_run command timeout w = (TimedOut, w') ->
  signals_structured_error (res (run_command command timeout w)).
Proof.
  intro Hrun. rewrite run_command_run, Hrun. cbn [res]. eexists; reflexivity.
Qed.

End Proofs.

(* ================================================================== *)
(** ** Concrete runs *)
(* ================================================================== *)

(** In [adb_listing] the record read for serial R58M12345 is the third
    line: the header and the emulator's line come before it. *)
Lemma adb_listing_selected : selected_state (Some "R58M12345") adb_listing "device".
Proof.
  exists ["List of devices attached"; "emulator-5554   offline"],
         "R58M12345      device usb:1-2", [].
  split; [reflexivity|]. split.
  - intros l [<-|[<-|[]]] st [Hh (d & rest & Hs & Hw)].
    + apply Hh. now exists " attached".
    + injection Hs as <- <- <-. destruct Hw as [Hw|Hw]; discriminate Hw.
  - split.
    + intros [rest Hrest]. discriminate Hrest.
    + exists "R58M12345", ["usb:1-2"]. split; [reflexivity|]. now right.
Defined.

Lemma probe_healthy_iff_device_token_witness :
  selected_state (Some "R58M12345") adb_listing "device" /\
  res (is_adb_healthy "adb" (Some "R58M12345") (sim [ok adb_listing])) = Ret true.
Proof.
  split; [exact adb_listing_selected|].
  destruct (@probe_healthy_iff_device_token Sim sim_host "adb" (Some "R58M12345")
              (sim [ok adb_listing]) (sim []) (mk_cp 0 adb_listing "") eq_refl eq_refl)
    as [Hsel _].
  destruct (Hsel "device" adb_listing_selected) as (_ & Htrue & _).
  apply Htrue. reflexivity.
Defined.

(** A line printed before the header is read as a record: with no filter
    the probe reads the first banner line and answers unhealthy. *)
Example banner_line_is_read_as_record :
  parse_adb_devices banner_listing None = Some "daemon" /\
  res (is_adb_healthy "adb" None (sim [ok banner_listing])) = Ret false /\
  res (is_adb_healthy "adb" (Some "R58M12345") (sim [ok banner_listing])) = Ret true.
Proof. vm_compute. repeat split; reflexivity. Qed.

Lemma hard_reset_disable_failure_skips_enable_witness :
  let r := hard_reset "devcon" "USB\VID_18D1&PID_4EE7\1" false (sim [failed 1 "denied"]) in
  res r = Ret false /\
  commands (evs r) = [["devcon"; "disable"; "USB\VID_18D1&PID_4EE7\1"]] /\
  issued "enable" (evs r) = 0%nat /\
  existsb is_sleep (evs r) = false /\
  fin r = sim [].
Proof.
  apply (@hard_reset_disable_failure_skips_enable Sim sim_host "devcon"
           "USB\VID_18D1&PID_4EE7\1" (sim [failed 1 "denied"]) (sim []) (mk_cp 1 "" "denied")).
  - reflexivity.
  - discriminate.
Defined.

Lemma soft_reset_issues_all_three_witness :
  let r := soft_reset "adb" (sim [failed 1 "a"; failed 2 "b"; ok ""]) in
  res r = Ret tt /\
  commands (evs r) = [["adb"; "kill-server"]; ["adb"; "start-server"]; ["adb"; "reconnect"]] /\
  fin r = sim [].
Proof.
  apply (@soft_reset_issues_all_three Sim sim_host "adb"
           (sim [failed 1 "a"; failed 2 "b"; ok ""]) (sim [failed 2 "b"; ok ""])
           (sim [ok ""]) (sim []) (mk_cp 1 "" "a") (mk_cp 2 "" "b") (mk_cp 0 "" ""));
    reflexivity.
Defined.



Lemma locator_prefers_name_match_witness :
  let r := find_devcon_device "devcon" (sim [ok two_stage_findall; ok two_stage_hwids]) in
  res r = Ret (Some "USB\VID_1234&PID_0001\77") /\
  commands (evs r) = [findall_command "devcon"] /\
  issued "hwids" (evs r) = 0%nat.
Proof.
  apply (@locator_prefers_name_match Sim sim_host "devcon"
           (sim [ok two_stage_findall; ok two_stage_hwids]) (sim [ok two_stage_hwids])
           (mk_cp 0 two_stage_findall "")
           [("USB\ROOT_HUB30\4&1", "USB Root Hub")] []
           "USB\VID_1234&PID_0001\77" "Android Composite ADB Interface").
  - reflexivity.
  - reflexivity.
  - reflexivity.
  - intros e [<-|[]] Hsub. apply contains_iff in Hsub. discriminate Hsub.
  - apply contains_iff. reflexivity.
Defined.

(** The vendor-ID entry of the same listings is what stage two would give. *)
Example two_stage_hwids_match :
  vid_stage (mk_cp 0 two_stage_hwids "") = Some "USB\VID_04E8&PID_6860\R58M".
Proof. reflexivity. Qed.


(** C4, as stated, fails for exit code 2: without privileges the exit code
    is 3 even when neither tool can be resolved. *)
Lemma exit_code_two_cex :
  let w := mk_sim [] 100 false [] in
  tools_found default_args w = false /\
  res (main 10 default_args w) = Ret 3%Z /\
  res (main 10 default_args w) <> Ret 2%Z.
Proof. cbv zeta. split; [reflexivity|]. split; [reflexivity|discriminate]. Qed.

Lemma calm_children_always_exit : @children_always_exit Calm calm_host.
Proof. intros command timeout w. now exists (calm_reply command w). Defined.

Lemma calm_host_progress : @host_progress Calm calm_host calm_clock.
Proof.
  split; intros; simpl; try apply Qle_refl.
Defined.

Lemma calm_clock_never_steps_back : @clock_never_steps_back Calm calm_host.
Proof. intro w. simpl. apply Qle_refl. Defined.

Lemma exit_code_classification_witness :
  ((0 = 3 <-> windows_admin calm0 = false) /\
   (0 = 2 <-> windows_admin calm0 = true /\ tools_found default_args calm0 = false) /\
   (0 = 0 <->
      windows_admin calm0 = true /\ tools_found default_args calm0 = true /\
      healthy_observed None (evs (main 10 default_args calm0))) /\
   (0 = 1 <->
      windows_admin calm0 = true /\ tools_found default_args calm0 = true /\
      ~ healthy_observed None (evs (main 10 default_args calm0))) /\
   (0 = 1 ->
      (1 <= issued "kill-server" (evs (main 10 default_args calm0)))%nat /\
      recovery_failed (evs (main 10 default_args calm0))))%Z /\
  returns (res (main 10 default_args calm0)).
Proof.
  destruct (@exit_code_classification Calm calm_host 10 default_args calm0) as [Hcode Hret].
  split.
  - apply (Hcode 0%Z). vm_compute. reflexivity.
  - apply (Hret calm_clock).
    + exact calm_children_always_exit.
    + exact calm_host_progress.
    + vm_compute. reflexivity.
    + simpl. lia.
Defined.

Lemma success_only_after_fresh_healthy_probe_witness :
  res (main 10 default_args calm0) = Ret 0%Z /\
  healthy_tail None (evs (main 10 default_args calm0)).
Proof.
  assert (H0 : res (main 10 default_args calm0) = Ret 0%Z) by (vm_compute; reflexivity).
  split; [exact H0|].
  apply (@success_only_after_fresh_healthy_probe Calm calm_host 10 default_args calm0 H0).
Defined.

Lemma nonpositive_timeout_polls_without_probing_witness :
  (let r := poll_until_healthy 10 "adb" None 0 calm0 in
   res r = Ret false /\ commands (evs r) = [] /\ absent is_sleep (evs r) /\
   List.length (evs r) = 2%nat) /\
  (issued "devices" (evs (main 10 no_wait_args calm0)) <= 1)%nat.
Proof.
  destruct (@nonpositive_timeout_polls_without_probing Calm calm_host 10 no_wait_args
              calm0 calm_clock_never_steps_back ltac:(simpl; lia))
    as (Hin & _ & Hmain).
  split; [|exact Hmain].
  apply (Hin ltac:(vm_compute; reflexivity) "adb" None calm0).
Defined.

(** C10, as stated, fails: [time.time()] is the wall clock, which an
    adjustment can set back.  With a timeout of 0 and a clock that reads
    100 and then 99, the deadline is 100, the first test of the loop
    passes, and the polling phase lists the devices and answers [True]. *)
Lemma nonpositive_timeout_probe_cex :
  let r := poll_until_healthy 10 "adb" None 0 set_back in
  res r = Ret true /\
  commands (evs r) = [["adb"; "devices"]] /\
  ~ @clock_never_steps_back Ticker ticker_host.
Proof.
  cbv zeta. split; [vm_compute; reflexivity|]. split; [vm_compute; reflexivity|].
  intro H. specialize (H set_back). vm_compute in H. now apply H.
Qed.

(** A timeout beyond the floats: the sum raises before any probe. *)
Example overflowing_timeout :
  res (poll_until_healthy 10 "adb" None (- 2 ^ 1024) calm0) = Raise OverflowError /\
  res (main 10 (mk_args "adb" "devcon" (10 ^ 309) None false false) calm0)
  = Raise OverflowError.
Proof. vm_compute. split; reflexivity. Qed.

(** With no time to wait, the run goes from the first probe through both
    polling phases to the end without another listing. *)
Example no_wait_run :
  let r := main 10 no_wait_args calm0 in
  res r = Ret 1%Z /\
  commands (evs r) =
    [["adb"; "devices"]; ["adb"; "kill-server"]; ["adb"; "start-server"];
     ["adb"; "reconnect"]; ["devcon"; "findall"; "=usb"];
     ["devcon"; "disable"; "USB\VID_1234&PID_0001\77"];
     ["devcon"; "enable"; "USB\VID_1234&PID_0001\77"];
     ["adb"; "kill-server"]; ["adb"; "start-server"]; ["adb"; "reconnect"]].
Proof. vm_compute. split; reflexivity. Qed.

(** The hard reset of scenario C, and of a dry run, is seen in the trace. *)
Example hard_reset_seen :
  existsb is_hard_reset_start (evs (main 10 default_args (sim scenario_C_replies))) = true /\
  existsb is_hard_reset_start
    (evs (main 10 dry_run_args
            (sim [ok unhealthy_listing; ok ""; ok ""; ok "";
                  ok unhealthy_listing; ok unhealthy_listing; ok findall_listing]))) = true.
Proof. vm_compute. split; reflexivity. Qed.

(** A tool that cannot be launched ends the whole run with the host's
    exception. *)
Example main_launch_failure :
  res (main 10 default_args (sim [])) = Raise (OSError "FileNotFoundError").
Proof. vm_compute. reflexivity. Qed.

(* ================================================================== *)
(** ** More on the parsers *)
(* ================================================================== *)

Lemma parse_adb_lines_empty_serial (lines : list string) :
  parse_adb_lines lines (Some EmptyString) = parse_adb_lines lines None.
Proof.
  induction lines as [|line rest IH]; simpl; [reflexivity|].
  destruct (PyStr.startswith _ _); [exact IH|].
  destruct (PyStr.split line) as [|device_serial [|state tl]]; auto.
Qed.

(** X1. An empty serial filter is no filter: [parse_adb_devices] selects
    the same record for [serial = ""] as for [serial = None]. *)
Theorem parse_adb_devices_empty_serial (output : string) :
  parse_adb_devices output (Some EmptyString) = parse_adb_devices output None.
Proof.
  unfold parse_adb_devices. destruct (List.map _ _); [reflexivity|].
  apply parse_adb_lines_empty_serial.
Qed.

Lemma parse_adb_lines_serial_sound (lines : list string) (serial state : string) :
  PyStr.truthy serial = true ->
  parse_adb_lines lines (Some serial) = Some state ->
  exists line rest, In line lines /\ PyStr.split line = serial :: state :: rest.
Proof.
  intros Hs. induction lines as [|line tl IH]; simpl; [discriminate|].
  assert (Hrec : parse_adb_lines tl (Some serial) = Some state ->
                 exists line0 rest, (line = line0 \/ In line0 tl) /\
                                    PyStr.split line0 = serial :: state :: rest).
  { intro H. destruct (IH H) as (l0 & rest & Hin & Hsplit). exists l0, rest. auto. }
  destruct (PyStr.startswith _ _); [exact Hrec|].
  destruct (PyStr.split line) as [|device_serial [|st rest]] eqn:Hsplit; try exact Hrec.
  unfold serial_rejects. rewrite Hs. cbn [andb].
  destruct (String.eqb device_serial serial) eqn:Heq; cbn [negb]; [|exact Hrec].
  intros [= <-]. apply String.eqb_eq in Heq. subst device_serial.
  exists line, rest. auto.
Qed.

(** X2. With a non-empty serial filter, the state [parse_adb_devices]
    returns is the second token of a line of the listing whose first token
    is that serial; in particular the result is [None] when no line starts
    with the serial, whatever the other records say. *)
Theorem parse_adb_devices_serial_sound (output serial state : string) :
  PyStr.truthy serial = true ->
  parse_adb_devices output (Some serial) = Some state ->
  exists line rest,
    In line (PyStr.splitlines output) /\
    PyStr.split (PyStr.strip line) = serial :: state :: rest.
Proof.
  intros Hs. unfold parse_adb_devices.
  destruct (List.map _ _) as [|l0 ls] eqn:Hlines; [discriminate|].
  rewrite <- Hlines. intro Hparse.
  destruct (parse_adb_lines_serial_sound _ _ _ Hs Hparse) as (line & rest & Hin & Hsplit).
  apply in_map_iff in Hin. destruct Hin as (raw & <- & Hraw).
  apply filter_In in Hraw. exists raw, rest. split; [apply Hraw|exact Hsplit].
Qed.

Lemma colon_code (c : ascii) : (PyStr.code c =? 58)%N = true -> c = ":"%char.
Proof.
  intro H. apply N.eqb_eq in H. unfold PyStr.code in H.
  rewrite <- (ascii_N_embedding c), H. reflexivity.
Qed.

Lemma split_colon_some (s a b : string) :
  PyStr.split_colon s = Some (a, b) -> s = a ++ ":" ++ b /\ colon_free a.
Proof.
  revert a b. induction s as [|c r IH]; intros a b; simpl; [discriminate|].
  destruct (PyStr.code c =? 58)%N eqn:Hc.
  - intros [= <- <-]. apply colon_code in Hc. subst c. split; reflexivity.
  - destruct (PyStr.split_colon r) as [[a' b']|]; [|discriminate].
    intros [= <- <-]. destruct (IH a' b' eq_refl) as [-> Hfree].
    split; [reflexivity|]. unfold colon_free. simpl. rewrite Hc.
    unfold colon_free in Hfree. now rewrite Hfree.
Qed.

Lemma colon_free_cons (c : ascii) (r : string) :
  colon_free (String c r) <-> (PyStr.code c =? 58)%N = false /\ colon_free r.
Proof.
  unfold colon_free. simpl. destruct (PyStr.code c =? 58)%N.
  - split; [discriminate|intros [[=] _]].
  - destruct (PyStr.split_colon r) as [[a b]|]; split; try discriminate; auto.
    intros [_ [=]].
Qed.

Lemma lstrip_colon_free (s : string) : colon_free s -> colon_free (PyStr.lstrip s).
Proof.
  induction s as [|c r IH]; simpl; [auto|].
  destruct (PyStr.is_space c); [|auto].
  intro H. apply colon_free_cons in H. apply IH, H.
Qed.

Lemma rstrip_colon_free (s : string) : colon_free s -> colon_free (PyStr.rstrip s).
Proof.
  induction s as [|c r IH]; simpl; [auto|].
  intro H. apply colon_free_cons in H. destruct H as [Hc Hr]. specialize (IH Hr).
  destruct (PyStr.rstrip r) as [|c' r'].
  - destruct (PyStr.is_space c); [reflexivity|]. apply colon_free_cons. now split.
  - apply colon_free_cons. now split.
Qed.

Lemma strip_colon_free (s : string) : colon_free s -> colon_free (PyStr.strip s).
Proof. intro H. unfold PyStr.strip. now apply rstrip_colon_free, lstrip_colon_free. Qed.

Lemma parse_findall_lines_in (lines : list string) (entry : string * string) :
  In entry (parse_findall_lines lines) ->
  exists line a b,
    In line lines /\ PyStr.split_colon line = Some (a, b) /\
    entry = (PyStr.strip a, PyStr.strip b).
Proof.
  induction lines as [|line rest IH]; simpl; [contradiction|].
  destruct (PyStr.split_colon line) as [[a b]|] eqn:Hsplit.
  - intros [<-|Hin].
    + exists line, a, b. auto.
    + destruct (IH Hin) as (l & a' & b' & Hl & Hs & He). exists l, a', b'. auto.
  - intro Hin. destruct (IH Hin) as (l & a' & b' & Hl & Hs & He). exists l, a', b'. auto.
Qed.

(** X3. Every entry of [parse_devcon_findall] comes from a line of the
    listing cut at its first colon: the line is [a ++ ":" ++ b] with no
    colon in [a], the identifier is [a] stripped and holds no colon, and
    the name is [b] stripped (so the name keeps any later colon). *)
Theorem parse_devcon_findall_entries (output instance_id name : string) :
  In (instance_id, name) (parse_devcon_findall output) ->
  exists line a b,
    In line (PyStr.splitlines output) /\
    line = a ++ ":" ++ b /\ colon_free a /\
    instance_id = PyStr.strip a /\ name = PyStr.strip b /\
    colon_free instance_id.
Proof.
  intro Hin. apply parse_findall_lines_in in Hin.
  destruct Hin as (line & a & b & Hline & Hsplit & [= -> ->]).
  apply split_colon_some in Hsplit. destruct Hsplit as [-> Hfree].
  exists (a ++ ":" ++ b), a, b. repeat split; try assumption.
  now apply strip_colon_free.
Qed.

Lemma parse_findall_lines_none (lines : list string) :
  (forall line, In line lines -> colon_free line) -> parse_findall_lines lines = [].
Proof.
  induction lines as [|line rest IH]; intro Hfree; simpl; [reflexivity|].
  rewrite (Hfree line (or_introl eq_refl)). apply IH.
  intros l Hl. apply Hfree. now right.
Qed.

Lemma four_shape (cls : ascii -> bool) (s v r : string) :
  Re.four cls s = Some (v, r) ->
  exists a b c d,
    v = String a (String b (String c (String d EmptyString))) /\
    s = String a (String b (String c (String d r))) /\
    cls a = true /\ cls b = true /\ cls c = true /\ cls d = true.
Proof.
  unfold Re.four. destruct s as [|a [|b [|c [|d r']]]]; try discriminate.
  destruct (cls a) eqn:Ha, (cls b) eqn:Hb, (cls c) eqn:Hc, (cls d) eqn:Hd;
    try discriminate.
  intros [= <- <-]. exists a, b, c, d. repeat split; assumption.
Qed.

Lemma upper_hex (c : ascii) :
  Re.is_hex c = true -> Re.is_upper_hex (PyStr.upper_char c) = true.
Proof.
  destruct c as [[] [] [] [] [] [] [] []]; intro H; try discriminate H; reflexivity.
Qed.

Lemma hwid_at_upper (s m : string) :
  Re.hwid_at s = Some m -> canonical_hwid (PyStr.upper m).
Proof.
  unfold Re.hwid_at.
  destruct (Re.lit "USB\VID_" s) as [s1|]; [|discriminate].
  destruct (Re.four Re.is_hex s1) as [[v s2]|] eqn:Hv; [|discriminate].
  destruct (Re.lit "&PID_" s2) as [s3|]; [|discriminate].
  destruct (Re.four Re.is_hex s3) as [[p s4]|] eqn:Hp; [|discriminate].
  intros [= <-].
  apply four_shape in Hv. destruct Hv as (a & b & c & d & -> & _ & Ha & Hb & Hc & Hd).
  apply four_shape in Hp. destruct Hp as (e & f & g & h & -> & _ & He & Hf & Hg & Hh).
  exists (PyStr.upper_char a), (PyStr.upper_char b), (PyStr.upper_char c),
         (PyStr.upper_char d), (PyStr.upper_char e), (PyStr.upper_char f),
         (PyStr.upper_char g), (PyStr.upper_char h).
  split; [reflexivity|]. repeat split; now apply upper_hex.
Qed.

Lemma search_hwid_upper (s m : string) :
  Re.search Re.hwid_at s = Some m -> canonical_hwid (PyStr.upper m).
Proof.
  induction s as [|c r IH]; cbn [Re.search].
  - destruct (Re.hwid_at EmptyString) eqn:H0; [|discriminate].
    intros [= <-]. now apply (hwid_at_upper EmptyString).
  - destruct (Re.hwid_at (String c r)) eqn:H0; [|exact IH].
    intros [= <-]. now apply (hwid_at_upper (String c r)).
Qed.

Lemma search_skip (at_ : string -> option string) (c : ascii) (r : string) :
  at_ (String c r) = None -> Re.search at_ (String c r) = Re.search at_ r.
Proof. intro H. cbn [Re.search]. now rewrite H. Qed.

Lemma canonical_vid_search (hwid : string) :
  canonical_hwid hwid -> Re.search Re.vid_at hwid = Some (vid_field hwid).
Proof.
  intros (a & b & c & d & e & f & g & h & -> & Ha & Hb & Hc & Hd & _).
  cbn [append].
  do 4 (rewrite search_skip by reflexivity).
  cbn [Re.search]. unfold Re.vid_at.
  change (Re.lit "VID_" (String "V" (String "I" (String "D" (String "_" ?x))))) with (Some x).
  unfold Re.four. rewrite Ha, Hb, Hc, Hd. reflexivity.
Qed.

Lemma hwids_step_canonical (st : list hwid_device * option hwid_device) (line : string) :
  canonical_state st -> canonical_state (hwids_step st line).
Proof.
  destruct st as [devices current]. unfold canonical_state, hwids_step. cbn [fst snd].
  intros [Hdevs Hcur].
  destruct (negb _).
  - destruct current as [c|]; cbn [fst snd]; split; try discriminate; try assumption.
    apply Forall_app. split; [assumption|]. constructor; [now apply Hcur|constructor].
  - destruct (if PyStr.startswith " " line then None else PyStr.split_colon line)
      as [[instance_id name]|].
    + cbn [fst snd]. split; [assumption|]. intros c [= <-]. constructor.
    + destruct current as [c|]; [|now split].
      destruct (Re.search Re.hwid_at line) as [m|] eqn:Hm; [|now split].
      cbn [fst snd]. split; [assumption|]. intros c' [= <-].
      unfold canonical_device. cbn [dev_hwids]. apply Forall_app. split.
      * now apply Hcur.
      * constructor; [now apply (search_hwid_upper line)|constructor].
Qed.

Lemma hwids_fold_canonical (lines : list string) st :
  canonical_state st -> canonical_state (fold_left hwids_step lines st).
Proof.
  revert st. induction lines as [|line rest IH]; intros st Hst; simpl; [assumption|].
  now apply IH, hwids_step_canonical.
Qed.

Lemma parse_devcon_hwids_canonical (output : string) :
  Forall canonical_device (parse_devcon_hwids output).
Proof.
  unfold parse_devcon_hwids.
  pose proof (hwids_fold_canonical (PyStr.splitlines output) ([], None)) as Hfold.
  destruct (fold_left hwids_step (PyStr.splitlines output) ([], None))
    as [devices current].
  destruct Hfold as [Hdevs Hcur]; [split; [constructor|discriminate]|].
  cbn [fst snd] in *. destruct current as [c|]; [|assumption].
  apply Forall_app. split; [assumption|]. constructor; [now apply Hcur|constructor].
Qed.

Lemma parsed_hwid_canonical (output : string) (device : hwid_device) (hwid : string) :
  In device (parse_devcon_hwids output) -> In hwid (dev_hwids device) ->
  canonical_hwid hwid.
Proof.
  intros Hdev Hhwid. pose proof (parse_devcon_hwids_canonical output) as Hall.
  rewrite Forall_forall in Hall. specialize (Hall device Hdev).
  unfold canonical_device in Hall. rewrite Forall_forall in Hall. now apply Hall.
Qed.

Lemma canonical_hwid_matches (hwid : string) :
  canonical_hwid hwid -> hwid_matches hwid = in_COMMON_ANDROID_VIDS (vid_field hwid).
Proof. intro H. unfold hwid_matches. now rewrite canonical_vid_search. Qed.

(** X4. Every hardware ID that [parse_devcon_hwids] stores has the form
    USB\VID_xxxx&PID_yyyy with upper-case hexadecimal digits, so the
    vendor search of [find_devcon_device] always matches on it and the
    entry is chosen exactly when the four characters after "USB\VID_" are
    in [COMMON_ANDROID_VIDS]. *)
Theorem parsed_hwids_are_canonical (output : string) (device : hwid_device) (hwid : string) :
  In device (parse_devcon_hwids output) ->
  In hwid (dev_hwids device) ->
  canonical_hwid hwid /\
  hwid_matches hwid = in_COMMON_ANDROID_VIDS (vid_field hwid).
Proof.
  intros Hdev Hhwid. pose proof (parsed_hwid_canonical output device hwid Hdev Hhwid).
  split; [assumption|]. now apply canonical_hwid_matches.
Qed.

Lemma first_name_match_sound (devices : list (string * string)) (instance_id name : string) :
  first_name_match devices = Some (instance_id, name) ->
  In (instance_id, name) devices /\ name_matches name = true.
Proof.
  induction devices as [|[i n] rest IH]; simpl; [discriminate|].
  destruct (name_matches n) eqn:Hn.
  - intros [= <- <-]. auto.
  - intro H. destruct (IH H). auto.
Qed.

Lemma first_vid_match_sound (devices : list hwid_device) (hwid : string) (device : hwid_device) :
  first_vid_match devices = Some (hwid, device) ->
  In device devices /\ In hwid (dev_hwids device) /\ hwid_matches hwid = true.
Proof.
  induction devices as [|d rest IH]; simpl; [discriminate|].
  destruct (find hwid_matches (dev_hwids d)) as [h|] eqn:Hfind.
  - intros [= <- <-]. apply find_some in Hfind. destruct Hfind. auto.
  - intro H. destruct (IH H) as (? & ? & ?). auto.
Qed.

Lemma hwids_fold_length (lines : list string) (st : list hwid_device * option hwid_device) :
  (List.length (fst (fold_left hwids_step lines st)) <=
   List.length (fst st)
   + List.length (List.filter (fun line => negb (PyStr.truthy (PyStr.strip line))) lines))%nat.
Proof.
  revert st. induction lines as [|line rest IH]; intro st; simpl; [lia|].
  specialize (IH (hwids_step st line)).
  assert (Hstep : (List.length (fst (hwids_step st line)) <=
                   List.length (fst st)
                   + (if negb (PyStr.truthy (PyStr.strip line)) then 1 else 0))%nat).
  { destruct st as [devices current]. unfold hwids_step.
    destruct (negb _).
    - destruct current; cbn [fst]; rewrite ?length_app; simpl; lia.
    - destruct (if PyStr.startswith " " line then None else PyStr.split_colon line)
        as [[? ?]|]; [cbn [fst]; lia|].
      destruct current; [|cbn [fst]; lia].
      destruct (Re.search Re.hwid_at line); cbn [fst]; lia. }
  destruct (negb (PyStr.truthy (PyStr.strip line))); simpl; lia.
Qed.

(** X5. [parse_devcon_hwids] closes an entry only at a blank line or at the
    end of the text, and a new header line replaces an entry that is still
    open: the number of entries returned is at most one more than the
    number of blank lines of the listing. *)
Theorem parse_devcon_hwids_length (output : string) :
  (List.length (parse_devcon_hwids output) <= S (blank_lines output))%nat.
Proof.
  unfold parse_devcon_hwids, blank_lines.
  pose proof (hwids_fold_length (PyStr.splitlines output) ([], None)) as Hlen.
  destruct (fold_left hwids_step (PyStr.splitlines output) ([], None))
    as [devices current].
  cbn [fst List.length] in Hlen.
  destruct current; rewrite ?length_app; simpl; lia.
Qed.

(** Two headers with no blank line between them: only the second entry
    is returned. *)
Example hwids_unseparated_headers :
  parse_devcon_hwids ("A: first" ++ LF ++ "  USB\VID_18D1&PID_4EE7" ++ LF
                      ++ "B: second" ++ LF) =
  [mk_device "B" "second" []].
Proof. reflexivity. Qed.

(* ================================================================== *)
(** ** More on the components and on [main] *)
(* ================================================================== *)

Ltac walk_prim :=
  lazymatch goal with
  | |- wp (bind (configure_logging _) _) _ _ => unfold configure_logging; apply wp_emit
  | |- wp (bind (logging _ _) _) _ _ => unfold logging at 1; apply wp_emit
  | |- wp (bind is_windows_admin _) _ _ => unfold is_windows_admin; apply wp_gets
  | |- wp (bind (resolve_executable _) _) _ _ =>
      unfold resolve_executable at 1; apply wp_gets
  | |- wp (bind (sleep _) _) _ _ =>
      apply wp_bind; unfold wp at 1; cbn [sleep res evs fin wp_then]
  | |- wp (ret _) _ _ => apply wp_ret
  end.

Ltac walk_call spec :=
  apply wp_bind; eapply wp_mono; [apply spec|]; cbv beta.

Ltac split_absent :=
  repeat match goal with
         | H : absent _ (_ ++ _) |- _ => apply absent_app in H; destruct H
         end;
  repeat (rewrite absent_app || rewrite absent_cons);
  repeat split; solve [assumption | reflexivity | apply absent_nil].

Ltac count_issued :=
  repeat rewrite issued_app;
  repeat match goal with H : issued _ _ = _ |- _ => rewrite H end;
  cbn; lia.

Ltac tally := first [reflexivity | discriminate | (unfold issued; cbn; lia)].

Ltac budget := solve [repeat split; try split_absent; try count_issued].

Ltac dry_leaf Hdry :=
  solve [repeat walk_prim; repeat split; try split_absent; try count_issued;
         match goal with
         | Hflag : ns_dry_run _ = true |- _ => destruct (Hdry Hflag); count_issued
         end].

Section More.

Context {W : Type} {host : Host W}.

(** X6. When the listing command exits non-zero, the probe answers
    unhealthy whatever the command printed, even a healthy record: it
    logs the stripped error text and returns [False] without raising. *)
Theorem probe_failed_listing_is_unhealthy
  (adb_path : string) (serial : option string) (w w' : W) (cp : CompletedProcess) :
  subprocess_run [adb_path; "devices"] None w = (Exited cp, w') ->
  returncode cp <> 0%Z ->
  is_adb_healthy adb_path serial w =
  mk_run (Ret false)
    [running [adb_path; "devices"];
     EvRun [adb_path; "devices"] None (Exited cp);
     EvLog WARNING ("adb devices failed: " ++ PyStr.strip (stderr cp))] w'.
Proof.
  intros Hrun Hrc. apply Z.eqb_neq in Hrc.
  rewrite is_adb_healthy_run. cbv zeta. rewrite Hrun.
  unfold reports_healthy, probe_log. rewrite Hrc. reflexivity.
Qed.

(** X7. A child that does not exit stops [soft_reset]: when kill-server
    exits (with any code) and start-server times out or cannot be
    launched, [soft_reset] raises and reconnect is never issued. *)
Theorem soft_reset_stops_when_child_does_not_exit
  (adb_path : string) (w0 w1 w2 : W) (cp1 : CompletedProcess) (r2 : spawn) :
  subprocess_run [adb_path; "kill-server"] None w0 = (Exited cp1, w1) ->
  subprocess_run [adb_path; "start-server"] None w1 = (r2, w2) ->
  (forall cp2, r2 <> Exited cp2) ->
  let r := soft_reset adb_path w0 in
  res r = Raise (spawn_error [adb_path; "start-server"] r2) /\
  commands (evs r) = [[adb_path; "kill-server"]; [adb_path; "start-server"]] /\
  issued "reconnect" (evs r) = 0%nat /\
  fin r = w2.
Proof.
  intros H1 H2 Hr2. cbv zeta.
  unfold soft_reset, ADB_SOFT_RESET_COMMANDS, for_each.
  rewrite (bind_ret_run _ (soft_reset_step_exited H1)).
  assert (Hstep : soft_reset_step adb_path ["start-server"] w1 =
                  mk_run (Raise (spawn_error [adb_path; "start-server"] r2))
                    [running [adb_path; "start-server"];
                     EvRun [adb_path; "start-server"] None r2] w2).
  { rewrite soft_reset_step_run. cbv zeta. rewrite H2.
    destruct r2 as [cp2| |why|why]; [now elim (Hr2 cp2)|reflexivity..]. }
  rewrite (bind_raise_run _ Hstep). cbn [res evs fin].
  rewrite issued_app, commands_app. unfold soft_reset_log.
  destruct (negb _); repeat split; reflexivity.
Qed.

(** X8. Outside dry-run mode, when the disable command exits 0,
    [hard_reset] sleeps two seconds and only then issues the enable
    command; it returns [True] exactly when enable exits 0.  The host is
    asked for nothing else. *)
Theorem hard_reset_enables_after_settle_delay
  (devcon_path instance_id : string) (w w1 w2 : W) (cp1 cp2 : CompletedProcess) :
  subprocess_run [devcon_path; "disable"; instance_id] None w = (Exited cp1, w1) ->
  returncode cp1 = 0%Z ->
  subprocess_run [devcon_path; "enable"; instance_id] None (time_sleep 2 w1)
    = (Exited cp2, w2) ->
  let r := hard_reset devcon_path instance_id false w in
  res r = Ret (returncode cp2 =? 0)%Z /\
  actions (evs r) =
    [EvRun [devcon_path; "disable"; instance_id] None (Exited cp1);
     EvSleep 2;
     EvRun [devcon_path; "enable"; instance_id] None (Exited cp2)] /\
  fin r = w2.
Proof.
  intros H1 Hrc H2. cbv zeta. unfold hard_reset.
  rewrite (bind_ret_run _ (run_command_exited H1)). rewrite Hrc. cbn [Z.eqb negb].
  assert (Hsleep : forall k : unit -> M W bool,
             bind (sleep 2) k w1 =
             mk_run (res (k tt (time_sleep 2 w1)))
               ([EvSleep 2] ++ evs (k tt (time_sleep 2 w1)))
               (fin (k tt (time_sleep 2 w1)))) by reflexivity.
  rewrite Hsleep. rewrite (bind_ret_run _ (run_command_exited H2)).
  destruct (returncode cp2 =? 0)%Z; repeat split; reflexivity.
Qed.

(* ---------------------------------------------------------------- *)
(** *** Which commands each component can issue *)

Lemma is_adb_healthy_budget (adb_path : string) (serial : option string) (w : W) :
  wp (is_adb_healthy adb_path serial) (fun _ tr _ => no_reset_commands tr) w.
Proof.
  unfold wp, no_reset_commands. rewrite is_adb_healthy_run. cbv zeta.
  destruct (subprocess_run [adb_path; "devices"] None w) as [[cp| |why|why] w'];
    cbn [evs]; try (repeat split; reflexivity).
  destruct (probe_log_is_log serial cp) as (lvl & msg & -> & _).
  repeat split; reflexivity.
Qed.

Lemma poll_loop_budget (adb_path : string) (serial : option string) (deadline : Q)
  (fuel : nat) (w : W) :
  wp (poll_loop fuel adb_path serial deadline) (fun _ tr _ => no_reset_commands tr) w.
Proof.
  revert w. induction fuel as [|fuel IH]; intro w; cbn [poll_loop];
    apply wp_bind; unfold wp at 1; unfold time_; destruct (time_time w) as [now w1];
    cbn [res evs fin wp_then]; destruct (Qlt_bool now deadline);
    try (repeat split; reflexivity).
  walk_call is_adb_healthy_budget. intros o tr w2 (Hd & He & Hk & Hf & Ht).
  destruct o as [[|]| |]; cbn [wp_then]; unfold no_reset_commands;
    try (try walk_prim; budget).
  walk_prim. eapply wp_mono; [apply IH|]. cbv beta.
  intros o' tr' w3 (Hd' & He' & Hk' & Hf' & Ht'). budget.
Qed.

Lemma poll_until_healthy_budget (adb_path : string) (serial : option string)
  (timeout : Z) (fuel : nat) (w : W) :
  wp (poll_until_healthy fuel adb_path serial timeout)
     (fun _ tr _ => no_reset_commands tr) w.
Proof.
  unfold poll_until_healthy. apply wp_bind. unfold wp at 1. unfold time_.
  destruct (time_time w) as [start w1]. cbn [res evs fin wp_then].
  destruct (float_of_int timeout) as [seconds|];
    [|unfold wp, no_reset_commands; cbn [raise res evs fin]; budget].
  eapply wp_mono; [apply poll_loop_budget|]. cbv beta.
  intros o tr w2 (Hd & He & Hk & Hf & Ht). unfold no_reset_commands. budget.
Qed.

Lemma soft_reset_step_budget (adb_path v : string) (w : W) :
  String.eqb v "disable" = false ->
  String.eqb v "enable" = false ->
  String.eqb v "findall" = false ->
  wp (soft_reset_step adb_path [v])
     (fun _ tr _ =>
        issued "disable" tr = 0%nat /\ issued "enable" tr = 0%nat /\
        issued "findall" tr = 0%nat /\
        issued "kill-server" tr = (if String.eqb v "kill-server" then 1 else 0)%nat /\
        absent is_timed tr) w.
Proof.
  intros Hd He Hf. unfold wp. rewrite soft_reset_step_run. cbv zeta.
  destruct (subprocess_run [adb_path; v] None w) as [[cp| |why|why] w'];
    cbn [res evs fin]; unfold absent, issued, soft_reset_log;
    try destruct (negb _); cbn; rewrite ?Hd, ?He, ?Hf;
    destruct (String.eqb v "kill-server"); repeat split.
Qed.

Lemma soft_reset_budget (adb_path : string) (w : W) :
  wp (soft_reset adb_path) (fun _ tr _ => soft_budget tr) w.
Proof.
  unfold soft_reset, ADB_SOFT_RESET_COMMANDS, soft_budget. cbn [for_each].
  walk_call soft_reset_step_budget; try reflexivity.
  intros o1 tr1 w1 (Hd1 & He1 & Hf1 & Hk1 & Ht1). cbn in Hk1.
  destruct o1 as [[]| |]; cbn [wp_then]; try budget.
  walk_call soft_reset_step_budget; try reflexivity.
  intros o2 tr2 w2 (Hd2 & He2 & Hf2 & Hk2 & Ht2). cbn in Hk2.
  destruct o2 as [[]| |]; cbn [wp_then]; try budget.
  walk_call soft_reset_step_budget; try reflexivity.
  intros o3 tr3 w3 (Hd3 & He3 & Hf3 & Hk3 & Ht3). cbn in Hk3.
  destruct o3 as [[]| |]; cbn [wp_then]; try (try walk_prim; budget).
Qed.

Lemma find_devcon_device_budget (devcon_path : string) (w : W) :
  wp (find_devcon_device devcon_path) (fun _ tr _ => find_budget tr) w.
Proof.
  unfold wp, find_budget. rewrite find_devcon_device_run. cbv zeta.
  destruct (subprocess_run (findall_command devcon_path) None w) as [[cp1| |why1|why1] w1];
    try (repeat split; tally).
  destruct (name_stage cp1) as [[instance_id name]|];
    [repeat split; tally|].
  destruct (subprocess_run (hwids_command devcon_path) None w1) as [[cp2| |why2|why2] w2];
    try (repeat split; tally).
  cbn [evs]. unfold vid_stage_log.
  destruct (negb _); [repeat split; tally|].
  destruct (first_vid_match _) as [[hwid device]|];
    repeat split; tally.
Qed.

Lemma hard_reset_budget (devcon_path instance_id : string) (dry_run : bool) (w : W) :
  wp (hard_reset devcon_path instance_id dry_run)
     (fun _ tr _ => hard_budget dry_run tr) w.
Proof.
  unfold hard_reset, hard_budget. destruct dry_run.
  { repeat split; tally. }
  walk_call run_command_spec. intros o1 tr1 w1 [r1 ->].
  destruct o1 as [disable| |]; cbn [wp_then];
    try (repeat split; tally).
  destruct (negb _); [repeat split; tally|].
  walk_prim. walk_call run_command_spec. intros o2 tr2 w2 [r2 ->].
  destruct o2 as [enable| |]; cbn [wp_then];
    try (repeat split; tally).
  destruct (negb _); repeat split; tally.
Qed.

Lemma main_budget_spec (fuel : nat) (args : Namespace) (w : W) :
  wp (main fuel args) (fun _ tr _ => main_budget (ns_dry_run args) tr) w.
Proof.
  unfold main, main_budget. do 2 walk_prim.
  destruct (negb (windows_admin w)); [do 2 walk_prim; budget|].
  do 2 walk_prim.
  destruct (resolved (executable (ns_adb_path args) w)) as [adb_path|];
    [|do 2 walk_prim; budget].
  destruct (resolved (executable (ns_devcon_path args) w)) as [devcon_path|];
    [|do 2 walk_prim; budget].
  walk_call is_adb_healthy_budget. intros o0 tr0 w0 (Hd0 & He0 & Hk0 & Hf0 & Ht0).
  destruct o0 as [[|]| |]; cbn [wp_then]; try (try walk_prim; budget).
  walk_prim. walk_call soft_reset_budget. intros o1 tr1 w1 (Hd1 & He1 & Hk1 & Hf1 & Ht1).
  destruct o1 as [[]| |]; cbn [wp_then]; try budget.
  walk_call poll_until_healthy_budget. intros o2 tr2 w2 (Hd2 & He2 & Hk2 & Hf2 & Ht2).
  destruct o2 as [[|]| |]; cbn [wp_then]; try (try walk_prim; budget).
  walk_prim. walk_call find_devcon_device_budget.
  intros o3 tr3 w3 (Hd3 & He3 & Hk3 & Hf3 & Ht3).
  destruct o3 as [found| |]; cbn [wp_then]; try budget.
  destruct (resolved found) as [instance_id|]; [|do 2 walk_prim; budget].
  walk_call hard_reset_budget. intros o4 tr4 w4 (He4 & Hd4 & Hdry4 & Hk4 & Hf4 & Ht4).
  assert (Hdry : ns_dry_run args = true ->
                 issued "disable" tr4 = 0%nat /\ issued "enable" tr4 = 0%nat).
  { intro H. specialize (Hdry4 H). lia. }
  destruct o4 as [[|]| |]; cbn [wp_then negb]; try dry_leaf Hdry.
  walk_call soft_reset_budget. intros o5 tr5 w5 (Hd5 & He5 & Hk5 & Hf5 & Ht5).
  destruct o5 as [[]| |]; cbn [wp_then]; try dry_leaf Hdry.
  walk_call poll_until_healthy_budget. intros o6 tr6 w6 (Hd6 & He6 & Hk6 & Hf6 & Ht6).
  destruct o6 as [[|]| |]; cbn [wp_then]; dry_leaf Hdry.
Qed.

(** X9. One run of [main] issues at most one disable command, never
    more enable commands than disable commands, at most two kill-server
    commands (one per soft reset) and at most one findall command. *)
Theorem main_command_budget (fuel : nat) (args : Namespace) (w : W) :
  let tr := evs (main fuel args w) in
  (issued "disable" tr <= 1)%nat /\
  (issued "enable" tr <= issued "disable" tr)%nat /\
  (issued "kill-server" tr <= 2)%nat /\
  (issued "findall" tr <= 1)%nat.
Proof.
  destruct (main_budget_spec fuel args w) as (Hd & He & Hk & Hf & _).
  cbv zeta. auto.
Qed.

(** X10. In dry-run mode no run of [main] issues a disable or an enable
    command, whatever the host answers. *)
Theorem dry_run_never_touches_the_device (fuel : nat) (args : Namespace) (w : W) :
  ns_dry_run args = true ->
  issued "disable" (evs (main fuel args w)) = 0%nat /\
  issued "enable" (evs (main fuel args w)) = 0%nat.
Proof.
  intro Hdry. destruct (main_budget_spec fuel args w) as (_ & _ & _ & _ & H & _).
  now apply H.
Qed.

(** X11. [main] starts every child process without a timeout: no command
    of the trace carries one. *)
Theorem main_never_sets_a_timeout (fuel : nat) (args : Namespace) (w : W) :
  absent is_timed (evs (main fuel args w)).
Proof.
  destruct (main_budget_spec fuel args w) as (_ & _ & _ & _ & _ & H). exact H.
Qed.

Lemma wp_true {A} (m : M W A) (w : W) : wp m (fun _ _ _ => True) w.
Proof. exact I. Qed.

Lemma actions_app (a b : list event) : actions (a ++ b) = (actions a ++ actions b)%list.
Proof. unfold actions. apply filter_app. Qed.

(** X12. When [main] returns 2 or 3 it has not touched the host: the
    trace holds no child process, no clock reading and no sleep, only
    logging. *)
Theorem precondition_failure_does_nothing (fuel : nat) (args : Namespace) (w : W) :
  res (main fuel args w) = Ret 2%Z \/ res (main fuel args w) = Ret 3%Z ->
  actions (evs (main fuel args w)) = [].
Proof.
  change (wp (main fuel args)
            (fun o tr _ => o = Ret 2%Z \/ o = Ret 3%Z -> actions tr = []) w).
  unfold main. do 2 walk_prim.
  destruct (negb (windows_admin w)); [do 2 walk_prim; reflexivity|].
  do 2 walk_prim.
  destruct (resolved (executable (ns_adb_path args) w)) as [adb_path|];
    [|do 2 walk_prim; reflexivity].
  destruct (resolved (executable (ns_devcon_path args) w)) as [devcon_path|];
    [|do 2 walk_prim; reflexivity].
  walk_call (wp_true (is_adb_healthy adb_path (ns_serial args))). intros o0 tr0 w0 _.
  destruct o0 as [[|]| |]; cbn [wp_then];
    try (try walk_prim; intros [H|H]; discriminate H).
  walk_prim. walk_call (wp_true (soft_reset adb_path)). intros o1 tr1 w1 _.
  destruct o1 as [[]| |]; cbn [wp_then]; try (intros [H|H]; discriminate H).
  walk_call (wp_true (poll_until_healthy fuel adb_path (ns_serial args) (ns_timeout args))).
  intros o2 tr2 w2 _.
  destruct o2 as [[|]| |]; cbn [wp_then];
    try (try walk_prim; intros [H|H]; discriminate H).
  walk_prim. walk_call (wp_true (find_devcon_device devcon_path)). intros o3 tr3 w3 _.
  destruct o3 as [found| |]; cbn [wp_then]; try (intros [H|H]; discriminate H).
  destruct (resolved found) as [instance_id|];
    [|do 2 walk_prim; intros [H|H]; discriminate H].
  walk_call (wp_true (hard_reset devcon_path instance_id (ns_dry_run args))).
  intros o4 tr4 w4 _.
  destruct o4 as [[|]| |]; cbn [wp_then negb];
    try (try walk_prim; intros [H|H]; discriminate H).
  walk_call (wp_true (soft_reset adb_path)). intros o5 tr5 w5 _.
  destruct o5 as [[]| |]; cbn [wp_then]; try (intros [H|H]; discriminate H).
  walk_call (wp_true (poll_until_healthy fuel adb_path (ns_serial args) (ns_timeout args))).
  intros o6 tr6 w6 _.
  destruct o6 as [[|]| |]; cbn [wp_then];
    try (repeat walk_prim; intros [H|H]; discriminate H).
Qed.

(** X13. When the privilege check passes, both tools resolve and the
    first listing comes back healthy, [main] returns 0 after that single
    command: no reset, no enumeration, no sleep, no clock reading. *)
Theorem already_healthy_runs_one_command
  (fuel : nat) (args : Namespace) (w w' : W) (adb_path devcon_path : string)
  (cp : CompletedProcess) :
  windows_admin w = true ->
  resolved (executable (ns_adb_path args) w) = Some adb_path ->
  resolved (executable (ns_devcon_path args) w) = Some devcon_path ->
  subprocess_run [adb_path; "devices"] None w = (Exited cp, w') ->
  reports_healthy (ns_serial args) cp = true ->
  let r := main fuel args w in
  res r = Ret 0%Z /\
  actions (evs r) = [EvRun [adb_path; "devices"] None (Exited cp)] /\
  fin r = w'.
Proof.
  intros Hadmin Hadb Hdevcon Hrun Hhealthy.
  change (wp (main fuel args)
            (fun o tr w1 =>
               o = Ret 0%Z /\
               actions tr = [EvRun [adb_path; "devices"] None (Exited cp)] /\
               w1 = w') w).
  unfold main. do 2 walk_prim. rewrite Hadmin. cbn [negb].
  do 2 walk_prim. rewrite Hadb, Hdevcon.
  apply wp_bind. unfold wp at 1. rewrite is_adb_healthy_run. cbv zeta.
  rewrite Hrun, Hhealthy. cbn [res evs fin wp_then].
  walk_prim. destruct (probe_log_is_log (ns_serial args) cp) as (lvl & msg & -> & _).
  repeat split.
Qed.


(** X15. What [poll_until_healthy] answers: [True] only right after a
    listing that came back healthy, and [False] only when a clock
    reading reached the deadline (its first reading plus the timeout)
    with no healthy listing during the phase. *)
Theorem poll_until_healthy_outcomes
  (fuel : nat) (adb_path : string) (serial : option string) (timeout : Z) (w : W) :
  let r := poll_until_healthy fuel adb_path serial timeout w in
  (res r = Ret true -> healthy_tail serial (evs r)) /\
  (res r = Ret false -> poll_exhausted serial timeout (evs r)).
Proof.
  cbv zeta. pose proof (poll_until_healthy_spec adb_path serial timeout fuel w) as H.
  unfold wp, poll_post in H. destruct H as [_ H].
  split; intro Hres; rewrite Hres in H; [exact H|apply H].
Qed.

Lemma is_adb_healthy_clock (clock : W -> Q) (adb_path : string)
  (serial : option string) (w : W) :
  host_progress clock ->
  wp (is_adb_healthy adb_path serial)
     (fun _ tr w' => issued "devices" tr = 1%nat /\ (clock w <= clock w')%Q) w.
Proof.
  intro Hclock. unfold wp. rewrite is_adb_healthy_run. cbv zeta.
  pose proof (run_forward Hclock [adb_path; "devices"] None w) as Hfwd.
  destruct (subprocess_run [adb_path; "devices"] None w) as [[cp| |why|why] w'];
    cbn [res evs fin snd] in *; try (split; [reflexivity|assumption]).
  destruct (probe_log_is_log serial cp) as (lvl & msg & -> & _).
  split; [reflexivity|assumption].
Qed.

Lemma poll_loop_probe_bound (clock : W -> Q) (adb_path : string)
  (serial : option string) (deadline : Q) (fuel : nat) (w : W) :
  host_progress clock ->
  wp (poll_loop fuel adb_path serial deadline)
     (fun _ tr _ =>
        issued "devices" tr = 0%nat \/
        (2 * inject_Z (Z.of_nat (issued "devices" tr)) - 2 < deadline - clock w)%Q) w.
Proof.
  intro Hclock. revert w. induction fuel as [|fuel IH]; intro w; cbn [poll_loop];
    apply wp_bind; unfold wp at 1; unfold time_;
    pose proof (read_after Hclock w) as Hafter;
    pose proof (read_before Hclock w) as Hbefore;
    destruct (time_time w) as [now w1]; cbn [fst snd] in *;
    cbn [res evs fin wp_then]; destruct (Qlt_bool now deadline) eqn:Hnow;
    try (left; reflexivity).
  apply Qlt_bool_iff in Hnow.
  walk_call (is_adb_healthy_clock clock); [exact Hclock|].
  intros o tr w2 [Hone Hfwd].
  assert (Hfirst : (2 * inject_Z (Z.of_nat 1) - 2 < deadline - clock w)%Q).
  { change (inject_Z (Z.of_nat 1)) with 1%Q. lra. }
  destruct o as [[|]| |]; cbn [wp_then];
    try (try walk_prim; right; rewrite !issued_app, Hone; exact Hfirst).
  walk_prim. pose proof (sleep_forward Hclock 2 w2) as Hsleep.
  change (inject_Z 2) with 2%Q in Hsleep.
  eapply wp_mono; [apply IH|]. cbv beta. intros o' tr' w3 Hrest. right.
  rewrite !issued_app, Hone. change (issued "devices" [EvTime now]) with 0%nat.
  change (issued "devices" [EvSleep 2]) with 0%nat.
  cbn [Nat.add]. rewrite Nat2Z.inj_succ. unfold Z.succ. rewrite inject_Z_plus.
  change (inject_Z 1) with 1%Q.
  destruct Hrest as [->|Hrest]; [change (inject_Z (Z.of_nat 0)) with 0%Q|]; lra.
Qed.

(** X16. On a host whose clock is not set back and advances by at least
    the time slept, one polling phase lists the devices at most
    ceil(timeout / 2) times: twice the number of listings is at most
    timeout + 1, and there is none when the timeout is not positive. *)
Theorem poll_until_healthy_probe_bound
  (clock : W -> Q) (fuel : nat) (adb_path : string) (serial : option string)
  (timeout : Z) (w : W) :
  host_progress clock ->
  (2 * Z.of_nat (issued "devices" (evs (poll_until_healthy fuel adb_path serial timeout w)))
   <= Z.max 0 (timeout + 1))%Z.
Proof.
  intro Hclock.
  change (wp (poll_until_healthy fuel adb_path serial timeout)
            (fun _ tr _ =>
               (2 * Z.of_nat (issued "devices" tr) <= Z.max 0 (timeout + 1))%Z) w).
  unfold poll_until_healthy. apply wp_bind. unfold wp at 1. unfold time_.
  pose proof (read_before Hclock w) as Hbefore.
  destruct (time_time w) as [start w1]. cbn [fst snd] in *.
  cbn [res evs fin wp_then].
  destruct (float_of_int timeout) as [seconds|] eqn:Hsec;
    [|unfold wp; cbn [raise res evs fin]; simpl; lia].
  apply float_of_int_some in Hsec. subst seconds.
  eapply wp_mono; [apply (poll_loop_probe_bound clock); exact Hclock|]. cbv beta.
  intros o tr w2 Hbound. rewrite issued_app.
  change (issued "devices" [EvTime start]) with 0%nat. cbn [Nat.add].
  destruct Hbound as [->|Hbound]; [simpl; lia|].
  assert (Hq : (inject_Z (2 * Z.of_nat (issued "devices" tr) - 2) < inject_Z timeout)%Q).
  { unfold Z.sub. rewrite inject_Z_plus, inject_Z_mult.
    change (inject_Z 2) with 2%Q. change (inject_Z (- (2))) with (-2)%Q. lra. }
  rewrite <- Zlt_Qlt in Hq. lia.
Qed.

(** X17. An identifier returned by [find_devcon_device] is never made
    up: it is the identifier of an entry of the findall listing (exit 0)
    whose name passes the name test, or of an entry of the hwids listing
    (exit 0) that holds a hardware ID whose vendor field is in
    [COMMON_ANDROID_VIDS]. *)
Theorem locator_result_is_a_listed_entry
  (devcon_path : string) (w : W) (instance_id : string) :
  let r := find_devcon_device devcon_path w in
  res r = Ret (Some instance_id) ->
  (exists cp name,
      In (EvRun (findall_command devcon_path) None (Exited cp)) (evs r) /\
      returncode cp = 0%Z /\
      In (instance_id, name) (parse_devcon_findall (stdout cp)) /\
      name_matches name = true) \/
  (exists cp device hwid,
      In (EvRun (hwids_command devcon_path) None (Exited cp)) (evs r) /\
      returncode cp = 0%Z /\
      In device (parse_devcon_hwids (stdout cp)) /\
      dev_id device = instance_id /\
      In hwid (dev_hwids device) /\
      in_COMMON_ANDROID_VIDS (vid_field hwid) = true).
Proof.
  cbv zeta. rewrite find_devcon_device_run. cbv zeta.
  destruct (subprocess_run (findall_command devcon_path) None w) as [[cp1| |why1|why1] w1];
    try discriminate.
  destruct (name_stage cp1) as [[i name]|] eqn:Hstage.
  - cbn [res evs]. intros [= ->]. left. exists cp1, name.
    unfold name_stage in Hstage. destruct (Z.eqb_spec (returncode cp1) 0); [|discriminate].
    apply first_name_match_sound in Hstage. destruct Hstage.
    repeat split; try assumption. simpl. auto.
  - destruct (subprocess_run (hwids_command devcon_path) None w1) as [[cp2| |why2|why2] w2];
      try discriminate.
    cbn [res evs]. unfold vid_stage.
    destruct (Z.eqb_spec (returncode cp2) 0) as [Hrc|]; cbn [negb]; [|discriminate].
    destruct (first_vid_match (parse_devcon_hwids (stdout cp2)))
      as [[hwid device]|] eqn:Hvid; [|discriminate].
    intros [= <-]. right. exists cp2, device, hwid.
    apply first_vid_match_sound in Hvid. destruct Hvid as (Hdev & Hhwid & Hmatch).
    rewrite (canonical_hwid_matches hwid) in Hmatch
      by (apply (parsed_hwid_canonical (stdout cp2) device); assumption).
    repeat split; try assumption. simpl. auto.
Qed.

(** X18. [resolve_executable] never returns an empty path on a host whose
    path separator is not empty, so the truth tests of [main] on the two
    resolved paths fail only for [None]. *)
Theorem resolve_executable_never_empty (path : string) (w : W) :
  PyStr.truthy (os_path_sep w) = true ->
  resolved (executable path w) = executable path w.
Proof.
  intro Hsep. unfold resolved, executable.
  assert (Hcontains : forall s, PyStr.truthy s = true ->
                                PyStr.contains s path = true -> PyStr.truthy path = true).
  { intros s Hs Hc. destruct path; [|reflexivity].
    destruct s; [discriminate|]. discriminate Hc. }
  destruct (PyStr.contains (os_path_sep w) path) eqn:Hc1; cbn [orb].
  - destruct (os_path_isfile path w); [|reflexivity].
    now rewrite (Hcontains _ Hsep Hc1).
  - destruct (os_path_altsep w) as [alt|].
    + destruct (PyStr.truthy alt) eqn:Halt; cbn [andb].
      * destruct (PyStr.contains alt path) eqn:Hc2.
        -- destruct (os_path_isfile path w); [|reflexivity].
           now rewrite (Hcontains _ Halt Hc2).
        -- destruct (shutil_which path w) as [p|]; [|reflexivity].
           destruct (PyStr.truthy p) eqn:Hp; [now rewrite Hp|reflexivity].
      * destruct (shutil_which path w) as [p|]; [|reflexivity].
        destruct (PyStr.truthy p) eqn:Hp; [now rewrite Hp|reflexivity].
    + destruct (shutil_which path w) as [p|]; [|reflexivity].
      destruct (PyStr.truthy p) eqn:Hp; [now rewrite Hp|reflexivity].
Qed.

(* ---------------------------------------------------------------- *)
(** *** The exceptions of a run *)

Section Exceptions.

Hypothesis Hnt : untimed_children_never_time_out.

Ltac other_exn := split; [discriminate|intros ?; discriminate].

Lemma run_command_raises (command : list string) (w : W) :
  wp (run_command command None) (fun o _ _ => no_timeout_error o) w.
Proof.
  unfold wp. rewrite run_command_run. pose proof (Hnt command w) as Hc.
  destruct (subprocess_run command None w) as [[cp| |why|why] w'];
    cbn [fst res] in *; intros e [= <-]; first [congruence|other_exn].
Qed.

Lemma is_adb_healthy_raises (adb_path : string) (serial : option string) (w : W) :
  wp (is_adb_healthy adb_path serial) (fun o _ _ => no_timeout_error o) w.
Proof.
  unfold wp. rewrite is_adb_healthy_run. cbv zeta.
  pose proof (Hnt [adb_path; "devices"] w) as Hc.
  destruct (subprocess_run [adb_path; "devices"] None w) as [[cp| |why|why] w'];
    cbn [fst res] in *; intros e [= <-]; first [congruence|other_exn].
Qed.

Lemma soft_reset_step_raises (adb_path : string) (args : list string) (w : W) :
  wp (soft_reset_step adb_path args) (fun o _ _ => no_timeout_error o) w.
Proof.
  unfold wp. rewrite soft_reset_step_run. cbv zeta.
  pose proof (Hnt (adb_path :: args) w) as Hc.
  destruct (subprocess_run (adb_path :: args) None w) as [[cp| |why|why] w'];
    cbn [fst res] in *; intros e [= <-]; first [congruence|other_exn].
Qed.

Ltac raises :=
  solve [ assumption
        | intros ? Hx; discriminate Hx
        | intros ? Hx; injection Hx as <-;
          match goal with
          | H : no_timeout_error (Raise _) |- _ => exact (H _ eq_refl)
          end
        | repeat walk_prim; intros ? Hx; discriminate Hx ].

Lemma soft_reset_raises (adb_path : string) (w : W) :
  wp (soft_reset adb_path) (fun o _ _ => no_timeout_error o) w.
Proof.
  unfold soft_reset, ADB_SOFT_RESET_COMMANDS. cbn [for_each].
  do 3 (walk_call soft_reset_step_raises; intros [[]| |] ? ? ?;
        cbn [wp_then]; try raises).
Qed.

Lemma poll_loop_raises (adb_path : string) (serial : option string) (deadline : Q)
  (fuel : nat) (w : W) :
  wp (poll_loop fuel adb_path serial deadline) (fun o _ _ => no_timeout_error o) w.
Proof.
  revert w. induction fuel as [|fuel IH]; intro w; cbn [poll_loop];
    apply wp_bind; unfold wp at 1; unfold time_; destruct (time_time w) as [now w1];
    cbn [res evs fin wp_then]; destruct (Qlt_bool now deadline);
    try ((intros ? Hx; discriminate Hx)).
  walk_call is_adb_healthy_raises. intros [[|]| |] ? ? ?; cbn [wp_then];
    try raises.
  walk_prim. eapply wp_mono; [apply IH|auto].
Qed.

Lemma poll_until_healthy_raises (adb_path : string) (serial : option string)
  (timeout : Z) (fuel : nat) (w : W) :
  wp (poll_until_healthy fuel adb_path serial timeout)
     (fun o _ _ => no_timeout_error o) w.
Proof.
  unfold poll_until_healthy. apply wp_bind. unfold wp at 1. unfold time_.
  destruct (time_time w) as [start w1]. cbn [res evs fin wp_then].
  destruct (float_of_int timeout) as [seconds|];
    [|unfold wp; cbn [raise res]; intros e [= <-]; other_exn].
  eapply wp_mono; [apply poll_loop_raises|auto].
Qed.

Lemma find_devcon_device_raises (devcon_path : string) (w : W) :
  wp (find_devcon_device devcon_path) (fun o _ _ => no_timeout_error o) w.
Proof.
  unfold wp. rewrite find_devcon_device_run. cbv zeta.
  pose proof (Hnt (findall_command devcon_path) w) as Hc1.
  destruct (subprocess_run (findall_command devcon_path) None w) as [[cp1| |why1|why1] w1];
    cbn [fst] in *; try (intros e [= <-]; first [congruence|other_exn]).
  destruct (name_stage cp1) as [[instance_id name]|]; [intros e Hx; discriminate Hx|].
  pose proof (Hnt (hwids_command devcon_path) w1) as Hc2.
  destruct (subprocess_run (hwids_command devcon_path) None w1) as [[cp2| |why2|why2] w2];
    cbn [fst res] in *; intros e [= <-]; first [congruence|other_exn].
Qed.

Lemma hard_reset_raises (devcon_path instance_id : string) (dry_run : bool) (w : W) :
  wp (hard_reset devcon_path instance_id dry_run)
     (fun o _ _ => no_timeout_error o) w.
Proof.
  unfold hard_reset. destruct dry_run; [raises|].
  walk_call run_command_raises. intros [disable| |] ? ? ?; cbn [wp_then];
    try raises.
  destruct (negb _); [raises|].
  walk_prim. walk_call run_command_raises. intros [enable| |] ? ? ?; cbn [wp_then];
    try raises.
  destruct (negb _); raises.
Qed.

Lemma main_raises (fuel : nat) (args : Namespace) (w : W) :
  wp (main fuel args) (fun o _ _ => no_timeout_error o) w.
Proof.
  unfold main. do 2 walk_prim.
  destruct (negb (windows_admin w)); [raises|].
  do 2 walk_prim.
  destruct (resolved (executable (ns_adb_path args) w)) as [adb_path|]; [|raises].
  destruct (resolved (executable (ns_devcon_path args) w)) as [devcon_path|];
    [|raises].
  walk_call is_adb_healthy_raises. intros [[|]| |] ? ? ?; cbn [wp_then];
    try raises.
  walk_prim. walk_call soft_reset_raises. intros [[]| |] ? ? ?; cbn [wp_then];
    try raises.
  walk_call poll_until_healthy_raises. intros [[|]| |] ? ? ?; cbn [wp_then];
    try raises.
  walk_prim. walk_call find_devcon_device_raises. intros [found| |] ? ? ?;
    cbn [wp_then]; try raises.
  destruct (resolved found) as [instance_id|]; [|raises].
  walk_call hard_reset_raises. intros [[|]| |] ? ? ?; cbn [wp_then negb];
    try raises.
  walk_call soft_reset_raises. intros [[]| |] ? ? ?; cbn [wp_then];
    try raises.
  walk_call poll_until_healthy_raises. intros [[|]| |] ? ? ?; cbn [wp_then];
    raises.
Qed.

End Exceptions.

(** X19. On a host where a child started without a timeout cannot time
    out, [main] never ends with the runner's [CommandError], nor with
    the [TimeoutExpired] it is made from: [main] sets no timeout, so the
    handler of [run_command] is never entered.  Other exceptions (a
    child that cannot be launched, output that does not decode, a
    timeout too large for a float) do leave [main]. *)
Theorem main_never_raises_command_error (fuel : nat) (args : Namespace) (w : W) :
  untimed_children_never_time_out ->
  (forall msg, res (main fuel args w) <> Raise (CommandError msg)) /\
  res (main fuel args w) <> Raise TimeoutExpired.
Proof.
  intro Hnt. pose proof (main_raises Hnt fuel args w) as H. unfold wp in H.
  split.
  - intros msg Hmsg. destruct (H _ Hmsg) as [_ Hc]. now elim (Hc msg).
  - intro Hx. destruct (H _ Hx) as [Ht _]. now elim Ht.
Qed.

End More.

(* ================================================================== *)
(** ** Reading back a findall listing *)
(* ================================================================== *)

Lemma append_empty_r (s : string) : s ++ EmptyString = s.
Proof. induction s as [|c s IH]; simpl; [reflexivity|now rewrite IH]. Qed.

Lemma append_associative (a b c : string) : (a ++ b) ++ c = a ++ b ++ c.
Proof. induction a as [|x a IH]; simpl; [reflexivity|now rewrite IH]. Qed.

Lemma append_snoc (cur s : string) (c : ascii) :
  PyStr.snoc cur c ++ s = cur ++ String c s.
Proof. unfold PyStr.snoc. induction cur as [|a cur IH]; simpl; [reflexivity|now rewrite IH]. Qed.

Lemma not_linebreak_not_cr (c : ascii) :
  PyStr.is_linebreak c = false -> (PyStr.code c =? 13)%N = false.
Proof.
  intro H. destruct (PyStr.code c =? 13)%N eqn:Hc; [|reflexivity].
  apply N.eqb_eq in Hc. unfold PyStr.is_linebreak in H. rewrite Hc in H. discriminate H.
Qed.

Lemma splitlines_from_line (s cur rest : string) :
  every (fun c => negb (PyStr.is_linebreak c)) s = true ->
  PyStr.splitlines_from cur (s ++ LF ++ rest) =
  (cur ++ s) :: PyStr.splitlines_from EmptyString rest.
Proof.
  revert cur. induction s as [|c s IH]; intros cur Hs.
  - rewrite append_empty_r. reflexivity.
  - cbn [every] in Hs. apply andb_true_iff in Hs. destruct Hs as [Hc Hs].
    apply negb_true_iff in Hc.
    cbn [append PyStr.splitlines_from].
    rewrite (not_linebreak_not_cr c Hc), Hc.
    change (s ++ String "010" rest) with (s ++ LF ++ rest).
    rewrite (IH _ Hs), append_snoc. reflexivity.
Qed.

Lemma split_colon_append (a b : string) :
  colon_free a -> PyStr.split_colon (a ++ ":" ++ b) = Some (a, b).
Proof.
  induction a as [|c a IH]; intro Hfree; [reflexivity|].
  apply colon_free_cons in Hfree. destruct Hfree as [Hc Hfree].
  cbn [append PyStr.split_colon]. rewrite Hc.
  change (a ++ String ":" b) with (a ++ ":" ++ b). now rewrite (IH Hfree).
Qed.

(** X20. Reading back a findall listing: when every identifier and name
    has nothing to strip and no line break, and no identifier holds a
    colon, [parse_devcon_findall] returns exactly the entries that were
    written, in order (names may hold colons). *)
Theorem parse_devcon_findall_reads_back (entries : list (string * string)) :
  (forall instance_id name, In (instance_id, name) entries ->
     plain instance_id /\ plain name /\ colon_free instance_id) ->
  parse_devcon_findall (format_findall entries) = entries.
Proof.
  unfold parse_devcon_findall, PyStr.splitlines.
  induction entries as [|[i n] rest IH]; intro Hall; [reflexivity|].
  destruct (Hall i n (or_introl eq_refl)) as ((Hi & Hil) & (Hn & Hnl) & Hfree).
  cbn [format_findall].
  replace (i ++ ": " ++ n ++ LF ++ format_findall rest)
    with ((i ++ ": " ++ n) ++ LF ++ format_findall rest)
    by (rewrite !append_associative; reflexivity).
  rewrite splitlines_from_line.
  - cbn [append parse_findall_lines].
    change (i ++ String ":" (String " " n)) with (i ++ ":" ++ String " " n).
    rewrite (split_colon_append i (String " " n) Hfree).
    change (PyStr.strip (String " " n)) with (PyStr.strip n).
    rewrite Hi, Hn. f_equal. apply IH.
    intros i' n' Hin. apply Hall. now right.
  - clear - Hil Hnl. induction i as [|c i IHi].
    + exact Hnl.
    + cbn [append every] in *. apply andb_true_iff in Hil. destruct Hil as [Hc Hil].
      rewrite Hc. cbn [andb]. now apply IHi.
Qed.

(* ================================================================== *)
(** ** More concrete runs *)
(* ================================================================== *)

Lemma parse_adb_devices_serial_sound_witness :
  exists line rest,
    In line (PyStr.splitlines adb_listing) /\
    PyStr.split (PyStr.strip line) = "R58M12345" :: "device" :: rest.
Proof.
  apply (parse_adb_devices_serial_sound adb_listing "R58M12345" "device"); reflexivity.
Defined.

Lemma parse_devcon_findall_entries_witness :
  exists line a b,
    In line (PyStr.splitlines two_stage_findall) /\
    line = a ++ ":" ++ b /\ colon_free a /\
    "USB\VID_1234&PID_0001\77" = PyStr.strip a /\
    "Android Composite ADB Interface" = PyStr.strip b /\
    colon_free "USB\VID_1234&PID_0001\77".
Proof.
  apply (parse_devcon_findall_entries two_stage_findall).
  right. left. reflexivity.
Defined.

Lemma parsed_hwids_are_canonical_witness :
  canonical_hwid "USB\VID_04E8&PID_6860" /\
  hwid_matches "USB\VID_04E8&PID_6860" =
  in_COMMON_ANDROID_VIDS (vid_field "USB\VID_04E8&PID_6860").
Proof.
  apply (parsed_hwids_are_canonical hwids_listing
           (mk_device "USB\VID_04E8&PID_6860\R58M" "SAMSUNG Mobile USB Composite Device"
              ["USB\VID_04E8&PID_6860"; "USB\VID_04E8&PID_6860"])).
  - right. left. reflexivity.
  - left. reflexivity.
Defined.

Lemma probe_failed_listing_is_unhealthy_witness :
  is_adb_healthy "adb" None (sim [Exited failed_listing]) =
  mk_run (Ret false)
    [running ["adb"; "devices"];
     EvRun ["adb"; "devices"] None (Exited failed_listing);
     EvLog WARNING ("adb devices failed: " ++ PyStr.strip (stderr failed_listing))]
    (sim []).
Proof.
  apply (@probe_failed_listing_is_unhealthy Sim sim_host "adb" None
           (sim [Exited failed_listing]) (sim []) failed_listing).
  - reflexivity.
  - discriminate.
Defined.

Lemma soft_reset_stops_when_child_does_not_exit_witness :
  let r := soft_reset "adb" (sim [failed 1 "a"; LaunchFailed "PermissionError"; ok ""]) in
  res r = Raise (spawn_error ["adb"; "start-server"] (LaunchFailed "PermissionError")) /\
  commands (evs r) = [["adb"; "kill-server"]; ["adb"; "start-server"]] /\
  issued "reconnect" (evs r) = 0%nat /\
  fin r = sim [ok ""].
Proof.
  apply (@soft_reset_stops_when_child_does_not_exit Sim sim_host "adb"
           (sim [failed 1 "a"; LaunchFailed "PermissionError"; ok ""])
           (sim [LaunchFailed "PermissionError"; ok ""]) (sim [ok ""])
           (mk_cp 1 "" "a") (LaunchFailed "PermissionError")).
  - reflexivity.
  - reflexivity.
  - discriminate.
Defined.

Lemma hard_reset_enables_after_settle_delay_witness :
  let r := hard_reset "devcon" "USB\VID_18D1&PID_4EE7\1" false
             (sim [ok ""; failed 5 "busy"]) in
  res r = Ret (5 =? 0)%Z /\
  actions (evs r) =
    [EvRun ["devcon"; "disable"; "USB\VID_18D1&PID_4EE7\1"] None (ok "");
     EvSleep 2;
     EvRun ["devcon"; "enable"; "USB\VID_18D1&PID_4EE7\1"] None (failed 5 "busy")] /\
  fin r = mk_sim [] (100 + inject_Z 2) true ["adb"; "devcon"].
Proof.
  apply (@hard_reset_enables_after_settle_delay Sim sim_host "devcon"
           "USB\VID_18D1&PID_4EE7\1" (sim [ok ""; failed 5 "busy"])
           (sim [failed 5 "busy"]) (mk_sim [] (100 + inject_Z 2) true ["adb"; "devcon"])
           (mk_cp 0 "" "") (mk_cp 5 "" "busy")); reflexivity.
Defined.

Lemma dry_run_never_touches_the_device_witness :
  issued "disable" (evs (main 10 dry_run_args calm0)) = 0%nat /\
  issued "enable" (evs (main 10 dry_run_args calm0)) = 0%nat.
Proof.
  apply (@dry_run_never_touches_the_device Calm calm_host 10 dry_run_args calm0).
  reflexivity.
Defined.

Lemma precondition_failure_does_nothing_witness :
  actions (evs (main 10 default_args unprivileged)) = [].
Proof.
  apply (@precondition_failure_does_nothing Sim sim_host 10 default_args unprivileged).
  right. vm_compute. reflexivity.
Defined.

Lemma already_healthy_runs_one_command_witness :
  let r := main 10 default_args (sim [ok healthy_listing]) in
  res r = Ret 0%Z /\
  actions (evs r) = [EvRun ["adb"; "devices"] None (ok healthy_listing)] /\
  fin r = sim [].
Proof.
  apply (@already_healthy_runs_one_command Sim sim_host 10 default_args
           (sim [ok healthy_listing]) (sim []) "adb" "devcon" (mk_cp 0 healthy_listing ""));
    reflexivity.
Defined.


Lemma poll_until_healthy_outcomes_witness :
  healthy_tail None (evs (poll_until_healthy 10 "adb" None 4 calm0)).
Proof.
  apply (@poll_until_healthy_outcomes Calm calm_host 10 "adb" None 4%Z calm0).
  vm_compute. reflexivity.
Defined.

Lemma poll_until_healthy_probe_bound_witness :
  (2 * Z.of_nat (issued "devices"
                   (evs (poll_until_healthy 10 "adb" None 4 (mk_calm 100 200 true))))
   <= Z.max 0 (4 + 1))%Z.
Proof.
  apply (@poll_until_healthy_probe_bound Calm calm_host calm_clock 10 "adb" None 4%Z
           (mk_calm 100 200 true)).
  exact calm_host_progress.
Defined.

(** The bound is reached: a timeout of four seconds gives two listings. *)
Example poll_probe_bound_reached :
  issued "devices" (evs (poll_until_healthy 10 "adb" None 4 (mk_calm 100 200 true))) = 2%nat.
Proof. vm_compute. reflexivity. Qed.

Lemma locator_result_is_a_listed_entry_witness :
  let r := find_devcon_device "devcon" (sim [failed 1 ""; ok two_stage_hwids]) in
  (exists cp name,
      In (EvRun (findall_command "devcon") None (Exited cp)) (evs r) /\
      returncode cp = 0%Z /\
      In ("USB\VID_04E8&PID_6860\R58M", name) (parse_devcon_findall (stdout cp)) /\
      name_matches name = true) \/
  (exists cp device hwid,
      In (EvRun (hwids_command "devcon") None (Exited cp)) (evs r) /\
      returncode cp = 0%Z /\
      In device (parse_devcon_hwids (stdout cp)) /\
      dev_id device = "USB\VID_04E8&PID_6860\R58M" /\
      In hwid (dev_hwids device) /\
      in_COMMON_ANDROID_VIDS (vid_field hwid) = true).
Proof.
  apply (@locator_result_is_a_listed_entry Sim sim_host "devcon"
           (sim [failed 1 ""; ok two_stage_hwids]) "USB\VID_04E8&PID_6860\R58M").
  vm_compute. reflexivity.
Defined.

Lemma resolve_executable_never_empty_witness :
  resolved (executable "adb" (sim [])) = executable "adb" (sim []).
Proof.
  apply (@resolve_executable_never_empty Sim sim_host "adb" (sim [])). reflexivity.
Defined.

Lemma calm_untimed_children_never_time_out :
  @untimed_children_never_time_out Calm calm_host.
Proof. intros command w. discriminate. Defined.

Lemma main_never_raises_command_error_witness :
  (forall msg, res (main 10 default_args calm0) <> Raise (CommandError msg)) /\
  res (main 10 default_args calm0) <> Raise TimeoutExpired.
Proof.
  apply (@main_never_raises_command_error Calm calm_host 10 default_args calm0).
  exact calm_untimed_children_never_time_out.
Defined.

(** The exceptions that do leave [main]: a child that cannot be launched,
    output that cannot be decoded, and a timeout beyond the floats. *)
Example main_other_exceptions :
  res (main 10 default_args (sim [])) = Raise (OSError "FileNotFoundError") /\
  res (main 10 default_args (sim [DecodeFailed "utf-8"]))
  = Raise (UnicodeDecodeError "utf-8") /\
  res (main 10 (mk_args "adb" "devcon" (10 ^ 309) None false false)
         (sim [ok unhealthy_listing; ok ""; ok ""; ok ""]))
  = Raise OverflowError.
Proof. vm_compute. repeat split; reflexivity. Qed.

Lemma parse_devcon_findall_reads_back_witness :
  parse_devcon_findall (format_findall two_entries) = two_entries.
Proof.
  apply (parse_devcon_findall_reads_back two_entries).
  intros instance_id name [H|[H|[]]]; injection H as <- <-; repeat split; reflexivity.
Defined.
